(** * medical-rep: process lifecycle, probe endpoints and configuration

    A shallow embedding of the Go packages [configs] (configuration
    snapshot and connection strings) and [app] (application lifecycle:
    [New], [Run], [Shutdown], the probe handlers, and [NewServer]).

    External collaborators (database, Redis, tableflip upgrader,
    go-sundheit registry, net/http) are objects whose method results are
    supplied by the environment; every call leaves an event in a log, so
    orderings of calls are properties of that log. *)

From Stdlib Require Import Ascii String.
From stdpp Require Import base strings list gmap pretty.

Local Open Scope Z_scope.
Local Open Scope string_scope.

(* ===================================================================== *)
(** ** Go runtime values: errors, formatting *)
(* ===================================================================== *)

(** Go [error] values.  Sentinels are compared by identity in the source
    ([err != http.ErrServerClosed]), so they get constructors of their own;
    [ErrWrap p e] is [fmt.Errorf(p + ": %w", e)]. *)
Inductive error : Type :=
| ErrServerClosed
| DeadlineExceeded
| ErrNew (msg : string)
| ErrWrap (prefix : string) (inner : error).

#[global] Instance error_eq_dec : EqDecision error.
Proof. solve_decision. Defined.

(** [err.Error()] *)
Fixpoint Error (e : error) : string :=
  match e with
  | ErrServerClosed => "http: Server closed"
  | DeadlineExceeded => "context deadline exceeded"
  | ErrNew m => m
  | ErrWrap p i => p +:+ ": " +:+ Error i
  end.

(** [errors.Unwrap] *)
Definition Unwrap (e : error) : option error :=
  match e with
  | ErrWrap _ i => Some i
  | _ => None
  end.

(** A Go [(T, error)] result. *)
Inductive result (A : Type) : Type :=
| Ok (a : A)
| Err (e : error).
Arguments Ok {A} a.
Arguments Err {A} e.

(** [%d] of a Go [int]. *)
Definition fmt_d (n : Z) : string := pretty n.

(** [fmt.Sprintf("%s:%d", host, port)] *)
Definition host_port (host : string) (port : Z) : string :=
  host +:+ ":" +:+ fmt_d port.

(** [strings.Contains] *)
Fixpoint Contains (s sub : string) : bool :=
  String.prefix sub s ||
  match s with
  | EmptyString => false
  | String _ s' => Contains s' sub
  end.

(** [strings.TrimPrefix] *)
Fixpoint string_drop (n : nat) (s : string) : string :=
  match n, s with
  | O, _ => s
  | S n', String _ s' => string_drop n' s'
  | S _, EmptyString => EmptyString
  end.

Definition TrimPrefix (s prefix : string) : string :=
  if String.prefix prefix s then string_drop (String.length prefix) s else s.

(** [strings.ReplaceAll(s, old, new)] for a pattern [old] of one byte. *)
Fixpoint ReplaceAll1 (s : string) (old : ascii) (new : string) : string :=
  match s with
  | EmptyString => EmptyString
  | String c s' =>
      (if Ascii.eqb c old then new else String c EmptyString)
      +:+ ReplaceAll1 s' old new
  end.

(** Strings of bytes below 128.  [strings.ToLower] works on runes; on
    these strings runes and bytes coincide. *)
Definition is_ascii_byte (c : ascii) : bool := (N_of_ascii c <? 128)%N.

Fixpoint isASCII (s : string) : bool :=
  match s with
  | EmptyString => true
  | String c s' => is_ascii_byte c && isASCII s'
  end.

Definition is_upper (c : ascii) : bool :=
  ((65 <=? N_of_ascii c) && (N_of_ascii c <=? 90))%N.

Definition lower_byte (c : ascii) : ascii :=
  if is_upper c then ascii_of_N (N_of_ascii c + 32) else c.

(** [strings.ToLower] on an ASCII string. *)
Fixpoint ToLower (s : string) : string :=
  match s with
  | EmptyString => EmptyString
  | String c s' => String (lower_byte c) (ToLower s')
  end.

(** The bytes of a string. *)
Fixpoint bytes (s : string) : list ascii :=
  match s with
  | EmptyString => []
  | String c s' => c :: bytes s'
  end.

(* ===================================================================== *)
(** ** Package configs *)
(* ===================================================================== *)

Module configs.

(** [time.Duration]: signed nanoseconds. *)
Definition Duration := Z.
Definition Second : Duration := 1000000000.
Definition Minute : Duration := 60 * Second.
Definition Hour : Duration := 60 * Minute.

Module ShutdownConfig.
Record t := mk { Timeout : Duration }.
End ShutdownConfig.

Module AppConfig.
Record t := mk {
  Name : string;
  Version : string;
  Environment : string;
  Debug : bool;
  Shutdown : ShutdownConfig.t
}.
End AppConfig.

Module TLSConfig.
Record t := mk { Enabled : bool; CertFile : string; KeyFile : string }.
End TLSConfig.

Module CORSConfig.
Record t := mk {
  AllowedOrigins : list string;
  AllowedMethods : list string;
  AllowedHeaders : list string
}.
End CORSConfig.

(** The [Rate float64] field is read by no function; it is left out. *)
Module RateLimitConfig.
Record t := mk { Enabled : bool; Burst : Z }.
End RateLimitConfig.

Module HTTPConfig.
Record t := mk {
  Port : Z;
  Host : string;
  ReadTimeout : Duration;
  WriteTimeout : Duration;
  IdleTimeout : Duration;
  MaxHeaderBytes : Z;
  TLS : TLSConfig.t;
  CORS : CORSConfig.t;
  RateLimit : RateLimitConfig.t
}.
End HTTPConfig.

Module DatabaseConfig.
Record t := mk {
  Driver : string;
  Host : string;
  Port : Z;
  Database : string;
  Username : string;
  Password : string;
  SSLMode : string;
  MaxOpenConns : Z;
  MaxIdleConns : Z;
  ConnMaxLifetime : Duration;
  MigrationsPath : string
}.
End DatabaseConfig.

Module RedisConfig.
Record t := mk {
  Host : string;
  Port : Z;
  Password : string;
  Database : Z;
  PoolSize : Z;
  DialTimeout : Duration;
  ReadTimeout : Duration;
  WriteTimeout : Duration
}.
End RedisConfig.

Module AuthConfig.
Record t := mk {
  JWTSecret : string;
  JWTExpiration : Duration;
  BCryptCost : Z
}.
End AuthConfig.

Module LoggingConfig.
Record t := mk {
  Level : string;
  Format : string;
  Output : string;
  MaxSize : Z;
  MaxBackups : Z;
  MaxAge : Z;
  Compress : bool
}.
End LoggingConfig.

Module HealthConfig.
Record t := mk {
  Enabled : bool;
  CheckInterval : Duration;
  Timeout : Duration;
  DatabaseCheck : bool;
  RedisCheck : bool;
  ExternalChecks : list string
}.
End HealthConfig.

Record Config := mkConfig {
  App : AppConfig.t;
  HTTP : HTTPConfig.t;
  Database : DatabaseConfig.t;
  Redis : RedisConfig.t;
  Auth : AuthConfig.t;
  Logging : LoggingConfig.t;
  Health : HealthConfig.t
}.

(** The value built by [loadDefaults]. *)
Definition defaults : Config := {|
  App := {|
    AppConfig.Name := "medical-rep-api";
    AppConfig.Version := "1.0.0";
    AppConfig.Environment := "development";
    AppConfig.Debug := true;
    AppConfig.Shutdown := {| ShutdownConfig.Timeout := 30 * Second |}
  |};
  HTTP := {|
    HTTPConfig.Port := 8080;
    HTTPConfig.Host := "0.0.0.0";
    HTTPConfig.ReadTimeout := 15 * Second;
    HTTPConfig.WriteTimeout := 15 * Second;
    HTTPConfig.IdleTimeout := 60 * Second;
    HTTPConfig.MaxHeaderBytes := Z.shiftl 1 20;
    HTTPConfig.TLS := {|
      TLSConfig.Enabled := false;
      TLSConfig.CertFile := EmptyString;
      TLSConfig.KeyFile := EmptyString
    |};
    HTTPConfig.CORS := {|
      CORSConfig.AllowedOrigins := ["*"];
      CORSConfig.AllowedMethods := ["GET"; "POST"; "PUT"; "DELETE"; "OPTIONS"];
      CORSConfig.AllowedHeaders := ["*"]
    |};
    HTTPConfig.RateLimit := {|
      RateLimitConfig.Enabled := false;
      RateLimitConfig.Burst := 200
    |}
  |};
  Database := {|
    DatabaseConfig.Driver := "postgres";
    DatabaseConfig.Host := "localhost";
    DatabaseConfig.Port := 5432;
    DatabaseConfig.Database := "medical_rep";
    DatabaseConfig.Username := "postgres";
    DatabaseConfig.Password := "password";
    DatabaseConfig.SSLMode := "disable";
    DatabaseConfig.MaxOpenConns := 25;
    DatabaseConfig.MaxIdleConns := 5;
    DatabaseConfig.ConnMaxLifetime := 5 * Minute;
    DatabaseConfig.MigrationsPath := "migrations"
  |};
  Redis := {|
    RedisConfig.Host := "localhost";
    RedisConfig.Port := 6379;
    RedisConfig.Password := EmptyString;
    RedisConfig.Database := 0;
    RedisConfig.PoolSize := 10;
    RedisConfig.DialTimeout := 5 * Second;
    RedisConfig.ReadTimeout := 3 * Second;
    RedisConfig.WriteTimeout := 3 * Second
  |};
  Auth := {|
    AuthConfig.JWTSecret := EmptyString;
    AuthConfig.JWTExpiration := 24 * Hour;
    AuthConfig.BCryptCost := 12
  |};
  Logging := {|
    LoggingConfig.Level := "info";
    LoggingConfig.Format := "json";
    LoggingConfig.Output := "stdout";
    LoggingConfig.MaxSize := 100;
    LoggingConfig.MaxBackups := 3;
    LoggingConfig.MaxAge := 28;
    LoggingConfig.Compress := true
  |};
  Health := {|
    HealthConfig.Enabled := true;
    HealthConfig.CheckInterval := 30 * Second;
    HealthConfig.Timeout := 5 * Second;
    HealthConfig.DatabaseCheck := true;
    HealthConfig.RedisCheck := true;
    HealthConfig.ExternalChecks := []
  |}
|}.

(** [validate], on the unmarshalled snapshot [C]. *)
Definition validate (C : Config) : option error :=
  if decide (C.(App).(AppConfig.Name) = EmptyString) then
    Some (ErrNew "app.name is required")
  else if ((C.(HTTP).(HTTPConfig.Port) <=? 0)%Z || (65535 <? C.(HTTP).(HTTPConfig.Port))%Z)%bool then
    Some (ErrNew "http.port must be between 1 and 65535")
  else if decide (C.(Database).(DatabaseConfig.Driver) = EmptyString) then
    Some (ErrNew "database.driver is required")
  else if bool_decide (C.(Auth).(AuthConfig.JWTSecret) = EmptyString)
          && bool_decide (C.(App).(AppConfig.Environment) = "production") then
    Some (ErrNew "auth.jwt_secret is required in production")
  else if C.(HTTP).(HTTPConfig.TLS).(TLSConfig.Enabled)
          && (bool_decide (C.(HTTP).(HTTPConfig.TLS).(TLSConfig.CertFile) = EmptyString)
              || bool_decide (C.(HTTP).(HTTPConfig.TLS).(TLSConfig.KeyFile) = EmptyString)) then
    Some (ErrNew "tls.cert_file and tls.key_file are required when TLS is enabled")
  else None.

(** [(c *Config) GetConnectionString] *)
Definition GetConnectionString (c : Config) : string :=
  let d := c.(Database) in
  if decide (d.(DatabaseConfig.Driver) = "postgres") then
    "host=" +:+ d.(DatabaseConfig.Host) +:+
    " port=" +:+ fmt_d d.(DatabaseConfig.Port) +:+
    " user=" +:+ d.(DatabaseConfig.Username) +:+
    " password=" +:+ d.(DatabaseConfig.Password) +:+
    " dbname=" +:+ d.(DatabaseConfig.Database) +:+
    " sslmode=" +:+ d.(DatabaseConfig.SSLMode)
  else if decide (d.(DatabaseConfig.Driver) = "mysql") then
    d.(DatabaseConfig.Username) +:+ ":" +:+ d.(DatabaseConfig.Password) +:+
    "@tcp(" +:+ d.(DatabaseConfig.Host) +:+ ":" +:+ fmt_d d.(DatabaseConfig.Port) +:+
    ")/" +:+ d.(DatabaseConfig.Database) +:+ "?parseTime=true"
  else EmptyString.

(** [(c *Config) GetRedisAddr] *)
Definition GetRedisAddr (c : Config) : string :=
  host_port c.(Redis).(RedisConfig.Host) c.(Redis).(RedisConfig.Port).

Definition IsProduction (c : Config) : bool :=
  bool_decide (c.(App).(AppConfig.Environment) = "production").

Definition IsDevelopment (c : Config) : bool :=
  bool_decide (c.(App).(AppConfig.Environment) = "development").

(** Replace the database section of a snapshot. *)
Definition with_driver (c : Config) (drv : string) : Config :=
  let d := c.(Database) in
  mkConfig c.(App) c.(HTTP)
    (DatabaseConfig.mk drv d.(DatabaseConfig.Host) d.(DatabaseConfig.Port)
       d.(DatabaseConfig.Database) d.(DatabaseConfig.Username)
       d.(DatabaseConfig.Password) d.(DatabaseConfig.SSLMode)
       d.(DatabaseConfig.MaxOpenConns) d.(DatabaseConfig.MaxIdleConns)
       d.(DatabaseConfig.ConnMaxLifetime) d.(DatabaseConfig.MigrationsPath))
    c.(Redis) c.(Auth) c.(Logging) c.(Health).

(** The key mapping that [loadEnvVars] hands to the environment
    provider: the name of an environment variable to a configuration
    key. *)
Definition envKey (s : string) : string :=
  let s := TrimPrefix s "MEDICAL_REP_" in
  ToLower (ReplaceAll1 s "_"%char ".").

End configs.

(* ===================================================================== *)
(** ** Effects: calls into the environment, the call log, blocking *)
(* ===================================================================== *)

(** The outcome of one call into an external collaborator: it returns
    [a] after [t] nanoseconds, or it never returns. *)
Inductive call (A : Type) : Type :=
| Done (t : N) (a : A)
| Hang.
Arguments Done {A} t a.
Arguments Hang {A}.

(** What the program does to the outside world, in program order. *)
Inductive event : Type :=
| EvConfigLoad
| EvLoggerNew
| EvDatabaseNew
| EvRedisNew
| EvTableflipNew
| EvHealthNew
| EvLog (level msg : string)
| EvRegisterCheck (name : string) (outcome : call (option error))
| EvNewHTTPCheck (name url : string) (outcome : call (option error))
| EvLoadX509KeyPair (certFile keyFile : string)
| EvListen (network addr : string)
| EvServe (tls : bool)
| EvReady
| EvSelect
| EvDBPing
| EvRedisPing
| EvHealthResults
| EvServerShutdown (timeout : Z)
| EvDeregisterAll
| EvDBClose
| EvRedisClose
| EvUpgraderStop.

#[global] Instance call_eq_dec `{EqDecision A} : EqDecision (call A).
Proof. solve_decision. Defined.
#[global] Instance event_eq_dec : EqDecision event.
Proof. solve_decision. Defined.

(** A run of a piece of the program: it returns [a] after [elapsed]
    nanoseconds spent in external calls, or blocks for ever inside an
    external call, or panics on a nil dereference.  The log is kept in
    all three cases. *)
Inductive run (A : Type) : Type :=
| Returned (elapsed : N) (log : list event) (a : A)
| Blocked (log : list event)
| Panicked (log : list event).
Arguments Returned {A} elapsed log a.
Arguments Blocked {A} log.
Arguments Panicked {A} log.

#[global] Instance run_ret : MRet run := λ A a, Returned 0 [] a.

#[global] Instance run_bind : MBind run := λ A B k m,
  match m with
  | Returned t l a =>
      match k a with
      | Returned t' l' b => Returned (t + t') (l ++ l') b
      | Blocked l' => Blocked (l ++ l')
      | Panicked l' => Panicked (l ++ l')
      end
  | Blocked l => Blocked l
  | Panicked l => Panicked l
  end.

Definition log_of {A} (m : run A) : list event :=
  match m with
  | Returned _ l _ => l
  | Blocked l => l
  | Panicked l => l
  end.

Definition value_of {A} (m : run A) : option A :=
  match m with
  | Returned _ _ a => Some a
  | _ => None
  end.

(** A step that only leaves a mark in the log. *)
Definition emit (ev : event) : run unit := Returned 0 [ev] ().

(** A call into the environment. *)
Definition extern {A} (ev : event) (c : call A) : run A :=
  match c with
  | Done t a => Returned t [ev] a
  | Hang => Blocked [ev]
  end.

(** A nil pointer dereference. *)
Definition panic {A} : run A := Panicked [].

(** [if err != nil { logger.Error(msg, "error", err) }] *)
Definition log_if_err (err : option error) (msg : string) : run unit :=
  match err with
  | Some _ => emit (EvLog "error" msg)
  | None => mret ()
  end.

(* ===================================================================== *)
(** ** External collaborators *)
(* ===================================================================== *)

(** Package [internal/platform/logger]; leveled events go to the log. *)
Module logger.
Record Logger := mk { cfg : configs.LoggingConfig.t; StdLogger : string }.
End logger.

(** Package [internal/platform/database], consumed through [Ping] and
    [Close].  [Ping] takes a context with a deadline, [Close] takes none. *)
Module database.
Record DB := mk { Ping : option error; Close : call (option error) }.
End database.

(** Package [internal/platform/redis]. *)
Module redis.
Record Client := mk { Ping : option error; Close : call (option error) }.
End redis.

(** [github.com/cloudflare/tableflip] *)
Module tableflip.
Record Listener := mkListener { Addr : string }.
Record Upgrader := mk {
  Listen : string → string → call (result Listener);
  Ready : call (option error);
  Stop : call unit
}.
End tableflip.

(** [github.com/AppsFlyer/go-sundheit] *)
Module gosundheit.
Record Health := mk {
  RegisterCheck : string → call (option error);
  DeregisterAll : call unit;
  (** [Results()]: the latest result per check name, and the aggregate. *)
  Results : gmap string (option error) * bool
}.
End gosundheit.

(** [net/http] *)
Module http.

Definition StatusOK : Z := 200.
Definition StatusServiceUnavailable : Z := 503.

(** [http.ResponseWriter]: headers are frozen by the first
    [WriteHeader]; a [Write] before any [WriteHeader] sends 200. *)
Record ResponseWriter := mkRW {
  header : gmap string string;
  status : option Z;
  body : string
}.

Definition fresh : ResponseWriter := mkRW ∅ None EmptyString.

Definition Header_Set (k v : string) (w : ResponseWriter) : ResponseWriter :=
  match w.(status) with
  | None => mkRW (<[k := v]> w.(header)) w.(status) w.(body)
  | Some _ => w
  end.

Definition WriteHeader (code : Z) (w : ResponseWriter) : ResponseWriter :=
  match w.(status) with
  | None => mkRW w.(header) (Some code) w.(body)
  | Some _ => w
  end.

Definition Write (b : string) (w : ResponseWriter) : ResponseWriter :=
  let w' := WriteHeader StatusOK w in
  mkRW w'.(header) w'.(status) (w'.(body) +:+ b).

(** The routes a [chi.Mux] was given. *)
Inductive handler : Type :=
| HHealth | HHealthz | HReadiness | HLiveness | HApiV1Root | HRoot.

Record Mux := mkMux {
  middlewares : list string;
  routes : list (string * string * handler)
}.

(** [tls.Config], as far as [setupTLS] fills it. *)
Record Certificate := mkCert { certFile : string; keyFile : string }.
Record TLSConfig := mkTLS {
  Certificates : list Certificate;
  MinVersion : Z;
  CipherSuites : list Z;
  PreferServerCipherSuites : bool;
  CurvePreferences : list Z
}.

Record Server := mkServer {
  Addr : string;
  Handler : option Mux;
  ReadTimeout : configs.Duration;
  WriteTimeout : configs.Duration;
  IdleTimeout : configs.Duration;
  MaxHeaderBytes : Z;
  ErrorLog : option string;
  TLSConfig_ : option TLSConfig
}.

(** What the network does to a server once it serves: how long the
    connections in flight need to become idle ([Hang]: never), and the
    error of closing the listeners. *)
Record Traffic := mkTraffic {
  drain : call unit;
  lnerr : option error
}.

(** [Server.Shutdown(ctx)] with [ctx] expiring after [timeout]: it
    returns the listeners' error once all connections are idle, or the
    context's error when the context expires first. *)
Definition Shutdown (tr : Traffic) (timeout : Z) : call (option error) :=
  match tr.(drain) with
  | Done t _ =>
      if (t <=? Z.to_N timeout)%N then Done t tr.(lnerr)
      else Done (Z.to_N timeout) (Some DeadlineExceeded)
  | Hang => Done (Z.to_N timeout) (Some DeadlineExceeded)
  end.

End http.

(** What wakes the [select] at the end of [Run]. *)
Inductive wakeup : Type :=
| WakeServeErr (err : error)
| WakeSignal (sig : string)
| WakeExit.

(** Everything the process finds outside itself. *)
Record World := mkWorld {
  configs_Load : call (result configs.Config);
  logger_New : configs.LoggingConfig.t → call (result logger.Logger);
  database_New : configs.DatabaseConfig.t → call (result database.DB);
  redis_New : configs.RedisConfig.t → call (result redis.Client);
  tableflip_New : call (result tableflip.Upgrader);
  gosundheit_New : gosundheit.Health;
  checks_NewHTTPCheck : string → string → call (option error);
  tls_LoadX509KeyPair : string → string → call (result http.Certificate);
  traffic : http.Traffic;
  wake : call wakeup
}.

(** JSON text is built from pieces; [quoted s] is [s] between double
    quotes. *)
Definition dq : string := String "034"%char EmptyString.
Definition quoted (s : string) : string := dq +:+ s +:+ dq.

(* ===================================================================== *)
(** ** Package app: the application (app.go) *)
(* ===================================================================== *)

Module app.
Import configs.

(** [App].  [config] and [logger] are set when the value is built and
    dereferenced everywhere; the other fields are pointers (or an
    interface) that may be nil. *)
Record App := mkApp {
  config : Config;
  logger : logger.Logger;
  router : option http.Mux;
  server : option http.Server;
  health : option gosundheit.Health;
  db : option database.DB;
  redis : option redis.Client;
  upgrader : option tableflip.Upgrader
}.

Record Dependencies := mkDependencies {
  Config_ : Config;
  Logger : logger.Logger;
  DB : option database.DB;
  Redis_ : option redis.Client;
  Health_ : option gosundheit.Health
}.

Definition set_router (a : App) (r : http.Mux) : App :=
  mkApp a.(config) a.(logger) (Some r) a.(server) a.(health) a.(db) a.(redis) a.(upgrader).

Definition set_server (a : App) (s : http.Server) : App :=
  mkApp a.(config) a.(logger) a.(router) (Some s) a.(health) a.(db) a.(redis) a.(upgrader).

(** [(a *App) setupRouter]; it returns the updated receiver and the
    error. *)
Definition setupRouter (a : App) : run (App * option error) :=
  let mw := ["RequestID"; "RealIP"; "Logger"; "Recoverer"; "Heartbeat /ping";
             "Timeout 60s"; "CORS"] in
  (if a.(config).(HTTP).(HTTPConfig.RateLimit).(RateLimitConfig.Enabled)
   then emit (EvLog "info" "Rate limiting is enabled but not implemented yet")
   else mret ());;
  match a.(health) with
  | None => panic
  | Some _ =>
      let rt := [("*", "/health", http.HHealth);
                 ("GET", "/healthz", http.HHealthz);
                 ("GET", "/readiness", http.HReadiness);
                 ("GET", "/liveness", http.HLiveness);
                 ("GET", "/api/v1/", http.HApiV1Root);
                 ("GET", "/", http.HRoot)] in
      mret (set_router a (http.mkMux mw rt), None)
  end.

(** [(a *App) setupServer] *)
Definition setupServer (a : App) : run (App * option error) :=
  let h := a.(config).(HTTP) in
  let addr := host_port h.(HTTPConfig.Host) h.(HTTPConfig.Port) in
  mret (set_server a
          (http.mkServer addr a.(router) h.(HTTPConfig.ReadTimeout)
             h.(HTTPConfig.WriteTimeout) h.(HTTPConfig.IdleTimeout)
             h.(HTTPConfig.MaxHeaderBytes) None None),
        None).

(** [a.health.RegisterCheck(check, ...)] for the check called [name]. *)
Definition registerCheck (a : App) (name : string) : run (option error) :=
  match a.(health) with
  | None => panic
  | Some h =>
      let c := h.(gosundheit.RegisterCheck) name in
      extern (EvRegisterCheck name c) c
  end.

(** The loop over [a.config.Health.ExternalChecks]. *)
Fixpoint externalChecks (a : App) (w : World) (urls : list string)
  : run (option error) :=
  match urls with
  | [] => mret None
  | url :: rest =>
      let name := "http_" +:+ url in
      let c := w.(checks_NewHTTPCheck) name url in
      err ← extern (EvNewHTTPCheck name url c) c;
      match err with
      | Some err =>
          mret (Some (ErrWrap ("failed to create HTTP health check for " +:+ url) err))
      | None =>
          err ← registerCheck a name;
          match err with
          | Some err =>
              mret (Some (ErrWrap ("failed to register HTTP health check for " +:+ url) err))
          | None => externalChecks a w rest
          end
      end
  end.

(** [(a *App) setupHealthChecks] *)
Definition setupHealthChecks (a : App) (w : World) : run (option error) :=
  let hc := a.(config).(Health) in
  if negb hc.(HealthConfig.Enabled) then mret None else
  err ← (if hc.(HealthConfig.DatabaseCheck) && bool_decide (is_Some a.(db))
         then registerCheck a "database" else mret None);
  match err with
  | Some err => mret (Some (ErrWrap "failed to register database health check" err))
  | None =>
      err ← (if hc.(HealthConfig.RedisCheck) && bool_decide (is_Some a.(redis))
             then registerCheck a "redis" else mret None);
      match err with
      | Some err => mret (Some (ErrWrap "failed to register redis health check" err))
      | None => externalChecks a w hc.(HealthConfig.ExternalChecks)
      end
  end.

(** [New]: the Go pair [(app, err)]. *)
Definition New (w : World) : run (option App * option error) :=
  r ← extern EvConfigLoad w.(configs_Load);
  match r with
  | Err err => mret (None, Some (ErrWrap "failed to load config" err))
  | Ok cfg =>
  r ← extern EvLoggerNew (w.(logger_New) cfg.(Logging));
  match r with
  | Err err => mret (None, Some (ErrWrap "failed to initialize logger" err))
  | Ok lg =>
  r ← extern EvDatabaseNew (w.(database_New) cfg.(Database));
  match r with
  | Err err =>
      emit (EvLog "error" "Failed to initialize database");;
      mret (None, Some (ErrWrap "failed to initialize database" err))
  | Ok d =>
  r ← extern EvRedisNew (w.(redis_New) cfg.(Redis));
  match r with
  | Err err =>
      emit (EvLog "error" "Failed to initialize Redis");;
      mret (None, Some (ErrWrap "failed to initialize Redis" err))
  | Ok rc =>
  r ← extern EvTableflipNew w.(tableflip_New);
  match r with
  | Err err =>
      emit (EvLog "error" "Failed to create tableflip upgrader");;
      mret (None, Some (ErrWrap "failed to create tableflip upgrader" err))
  | Ok up =>
  emit EvHealthNew;;
  let a := mkApp cfg lg None None (Some w.(gosundheit_New)) (Some d) (Some rc) (Some up) in
  '(a, err) ← setupRouter a;
  match err with
  | Some err => mret (None, Some (ErrWrap "failed to setup router" err))
  | None =>
  '(a, err) ← setupServer a;
  match err with
  | Some err => mret (None, Some (ErrWrap "failed to setup server" err))
  | None =>
  err ← setupHealthChecks a w;
  match err with
  | Some err => mret (None, Some (ErrWrap "failed to setup health checks" err))
  | None => mret (Some a, None)
  end end end end end end end end.

Definition json_status (s : string) : string :=
  "{" +:+ quoted "status" +:+ ": " +:+ quoted s +:+ "}".
Definition json_ready (b : string) : string :=
  "{" +:+ quoted "ready" +:+ ": " +:+ b +:+ "}".
Definition json_alive : string :=
  "{" +:+ quoted "alive" +:+ ": true}".

(** [(a *App) healthzHandler] *)
Definition healthzHandler (a : App) (rw : http.ResponseWriter)
  : run http.ResponseWriter :=
  match a.(health) with
  | None => panic
  | Some h =>
      emit EvHealthResults;;
      let '(results, healthy) := h.(gosundheit.Results) in
      let rw := http.Header_Set "Content-Type" "application/json" rw in
      let rw :=
        if negb healthy then
          http.Write (json_status "unhealthy")
            (http.WriteHeader http.StatusServiceUnavailable rw)
        else
          http.Write (json_status "healthy")
            (http.WriteHeader http.StatusOK rw) in
      emit (EvLog "debug" "Health check");;
      mret rw
  end.

(** The first half of [readinessHandler]: the locals [ready] and
    [checks] after both dependencies were pinged. *)
Definition readinessChecks (a : App) : run (bool * gmap string string) :=
  let ready := true in
  let checks : gmap string string := ∅ in
  '(ready, checks) ←
    match a.(db) with
    | Some d =>
        emit EvDBPing;;
        match d.(database.Ping) with
        | Some _ => mret (false, <["database" := "unhealthy"]> checks)
        | None => mret (ready, <["database" := "healthy"]> checks)
        end
    | None => mret (ready, checks)
    end;
  match a.(redis) with
  | Some r =>
      emit EvRedisPing;;
      match r.(redis.Ping) with
      | Some _ => mret (false, <["redis" := "unhealthy"]> checks)
      | None => mret (ready, <["redis" := "healthy"]> checks)
      end
  | None => mret (ready, checks)
  end.

(** [(a *App) readinessHandler].  The local [response] holds both
    [ready] and [checks]; what is written is a fixed text chosen by
    [ready] alone. *)
Definition readinessHandler (a : App) (rw : http.ResponseWriter)
  : run http.ResponseWriter :=
  '(ready, checks) ← readinessChecks a;
  let rw := http.Header_Set "Content-Type" "application/json" rw in
  let rw :=
    if negb ready then http.WriteHeader http.StatusServiceUnavailable rw
    else http.WriteHeader http.StatusOK rw in
  let response := (ready, checks) in
  mret (if ready then http.Write (json_ready "true") rw
        else http.Write (json_ready "false") rw).

(** [(a *App) livenessHandler] *)
Definition livenessHandler (a : App) (rw : http.ResponseWriter)
  : run http.ResponseWriter :=
  let rw := http.Header_Set "Content-Type" "application/json" rw in
  let rw := http.WriteHeader http.StatusOK rw in
  mret (http.Write json_alive rw).

(** [(a *App) Shutdown].  Only the drain of the HTTP server is given
    the context with the configured timeout; the other steps are plain
    calls. *)
Definition Shutdown (a : App) (w : World) : run (option error) :=
  emit (EvLog "info" "Shutting down application...");;
  let timeout := a.(config).(configs.App).(AppConfig.Shutdown).(ShutdownConfig.Timeout) in
  match a.(server) with
  | None => panic
  | Some _ =>
      err ← extern (EvServerShutdown timeout) (http.Shutdown w.(traffic) timeout);
      log_if_err err "Server shutdown error";;
      match a.(health) with
      | Some h => extern EvDeregisterAll h.(gosundheit.DeregisterAll)
      | None => mret ()
      end;;
      match a.(db) with
      | Some d =>
          err ← extern EvDBClose d.(database.Close);
          log_if_err err "Database close error"
      | None => mret ()
      end;;
      match a.(redis) with
      | Some r =>
          err ← extern EvRedisClose r.(redis.Close);
          log_if_err err "Redis close error"
      | None => mret ()
      end;;
      match a.(upgrader) with
      | Some u => extern EvUpgraderStop u.(tableflip.Stop)
      | None => mret ()
      end;;
      emit (EvLog "info" "Application shutdown complete");;
      mret None
  end.

(** [(a *App) Run].  The [go] statement that starts [Serve] is the
    event [EvServe]; what the goroutine later sends on [errChan] is one
    of the ways the [select] wakes up. *)
Definition Run (a : App) (w : World) : run (option error) :=
  let h := a.(config).(HTTP) in
  let addr := host_port h.(HTTPConfig.Host) h.(HTTPConfig.Port) in
  match a.(upgrader) with
  | None => panic
  | Some up =>
  r ← extern (EvListen "tcp" addr) (up.(tableflip.Listen) "tcp" addr);
  match r with
  | Err err => mret (Some (ErrWrap ("failed to listen on " +:+ addr) err))
  | Ok ln =>
  emit (EvLog "info" "Starting server");;
  match a.(server) with
  | None => panic
  | Some _ =>
  emit (EvServe h.(HTTPConfig.TLS).(TLSConfig.Enabled));;
  err ← extern EvReady up.(tableflip.Ready);
  match err with
  | Some err => mret (Some (ErrWrap "failed to signal ready" err))
  | None =>
  wk ← extern EvSelect w.(wake);
  match wk with
  | WakeServeErr err =>
      if decide (err = ErrServerClosed) then Shutdown a w
      else mret (Some (ErrWrap "server error" err))
  | WakeSignal sig =>
      emit (EvLog "info" "Received shutdown signal");;
      Shutdown a w
  | WakeExit =>
      emit (EvLog "info" "Received upgrade signal");;
      Shutdown a w
  end end end end end.

(** [(a *App) GetDependencies] *)
Definition GetDependencies (a : App) : Dependencies :=
  mkDependencies a.(config) a.(logger) a.(db) a.(redis) a.(health).

(** The entry point of cmd: [app.New()], then [application.Run()];
    the value is the exit status of the process. *)
Definition main (w : World) : run Z :=
  '(application, err) ← New w;
  match application, err with
  | Some application, None =>
      err ← Run application w;
      match err with
      | Some _ => emit (EvLog "std" "Application error");; mret 1
      | None => mret 0
      end
  | _, _ => emit (EvLog "fatal" "Failed to create application");; mret 1
  end.

End app.

(* ===================================================================== *)
(** ** Package app: the HTTP server wrapper (server.go) *)
(* ===================================================================== *)

Module server.
Import configs.

Record Server := mkServer {
  config : Config;
  logger : logger.Logger;
  server : option http.Server;
  upgrader : tableflip.Upgrader;
  listener : option tableflip.Listener
}.

(** Every field of [ServerOptions] is a pointer or an interface. *)
Record ServerOptions := mkOptions {
  Config_ : option Config;
  Logger : option logger.Logger;
  Handler : option http.Mux;
  Upgrader : option tableflip.Upgrader
}.

Definition VersionTLS12 : Z := 0x0303.
Definition TLS_ECDHE_RSA_WITH_AES_256_GCM_SHA384 : Z := 0xc030.
Definition TLS_ECDHE_RSA_WITH_CHACHA20_POLY1305 : Z := 0xcca8.
Definition TLS_ECDHE_RSA_WITH_AES_128_GCM_SHA256 : Z := 0xc02f.
Definition TLS_RSA_WITH_AES_256_GCM_SHA384 : Z := 0x009d.
Definition TLS_RSA_WITH_AES_128_GCM_SHA256 : Z := 0x009c.
Definition CurveP256 : Z := 23.
Definition X25519 : Z := 29.

(** [(s *Server) setupTLS] *)
Definition setupTLS (s : Server) (w : World) : run (option http.TLSConfig * option error) :=
  let t := s.(config).(HTTP).(HTTPConfig.TLS) in
  let cf := t.(TLSConfig.CertFile) in
  let kf := t.(TLSConfig.KeyFile) in
  r ← extern (EvLoadX509KeyPair cf kf) (w.(tls_LoadX509KeyPair) cf kf);
  match r with
  | Err err => mret (None, Some (ErrWrap "failed to load TLS certificate" err))
  | Ok cert =>
      mret (Some (http.mkTLS [cert] VersionTLS12
                    [TLS_ECDHE_RSA_WITH_AES_256_GCM_SHA384;
                     TLS_ECDHE_RSA_WITH_CHACHA20_POLY1305;
                     TLS_ECDHE_RSA_WITH_AES_128_GCM_SHA256;
                     TLS_RSA_WITH_AES_256_GCM_SHA384;
                     TLS_RSA_WITH_AES_128_GCM_SHA256]
                    true [CurveP256; X25519]),
            None)
  end.

(** [(s *Server) setupServer]; the updated receiver and the error. *)
Definition setupServer (s : Server) (handler : http.Mux) (w : World)
  : run (Server * option error) :=
  let h := s.(config).(HTTP) in
  let addr := host_port h.(HTTPConfig.Host) h.(HTTPConfig.Port) in
  let srv tlsc :=
    http.mkServer addr (Some handler) h.(HTTPConfig.ReadTimeout)
      h.(HTTPConfig.WriteTimeout) h.(HTTPConfig.IdleTimeout)
      h.(HTTPConfig.MaxHeaderBytes)
      (Some s.(logger).(logger.StdLogger)) tlsc in
  let with_srv tlsc :=
    mkServer s.(config) s.(logger) (Some (srv tlsc)) s.(upgrader) s.(listener) in
  if h.(HTTPConfig.TLS).(TLSConfig.Enabled) then
    '(tlsConfig, err) ← setupTLS (with_srv None) w;
    match err with
    | Some err => mret (with_srv None, Some (ErrWrap "failed to setup TLS" err))
    | None => mret (with_srv tlsConfig, None)
    end
  else mret (with_srv None, None).

(** [NewServer]: the Go pair [(server, err)]. *)
Definition NewServer (opts : ServerOptions) (w : World)
  : run (option Server * option error) :=
  match opts.(Config_) with
  | None => mret (None, Some (ErrNew "config is required"))
  | Some cfg =>
  match opts.(Logger) with
  | None => mret (None, Some (ErrNew "logger is required"))
  | Some lg =>
  match opts.(Handler) with
  | None => mret (None, Some (ErrNew "handler is required"))
  | Some hd =>
  match opts.(Upgrader) with
  | None => mret (None, Some (ErrNew "upgrader is required"))
  | Some up =>
      let s := mkServer cfg lg None up None in
      '(s, err) ← setupServer s hd w;
      match err with
      | Some err => mret (None, Some (ErrWrap "failed to setup server" err))
      | None => mret (Some s, None)
      end
  end end end end.

(** [(s *Server) IsReady] *)
Definition IsReady (s : Server) : bool := bool_decide (is_Some s.(listener)).


Definition set_server (s : Server) (srv : http.Server) : Server :=
  mkServer s.(config) s.(logger) (Some srv) s.(upgrader) s.(listener).


(** [(s *Server) Addr] *)
Definition Addr (s : Server) : option string :=
  match s.(listener) with
  | Some ln => Some ln.(tableflip.Addr)
  | None => None
  end.

(** [(s *Server) HealthCheck]; [dial addr] is the error of
    [net.DialTimeout] to [addr], which gives up after five seconds. *)
Definition HealthCheck (s : Server) (dial : string → option error) : option error :=
  if negb (IsReady s) then Some (ErrNew "server is not ready") else
  match Addr s with
  | None => Some (ErrNew "server address not available")
  | Some addr =>
      match dial addr with
      | Some err => Some (ErrWrap "failed to connect to server" err)
      | None => None
      end
  end.

(** The values of the metrics map. *)
Inductive metric : Type :=
| MBool (b : bool)
| MInt (n : Z)
| MString (s : string).

(** [(s *Server) GetMetrics] *)
Definition GetMetrics (s : Server) : gmap string metric :=
  let h := s.(config).(HTTP) in
  let metrics : gmap string metric :=
    <["host" := MString h.(HTTPConfig.Host)]>
      (<["port" := MInt h.(HTTPConfig.Port)]>
         (<["tls_enabled" := MBool h.(HTTPConfig.TLS).(TLSConfig.Enabled)]>
            (<["server_ready" := MBool (IsReady s)]> ∅))) in
  match s.(listener) with
  | Some ln => <["addr" := MString ln.(tableflip.Addr)]> metrics
  | None => metrics
  end.

End server.

(* ===================================================================== *)
(** ** Observations on logs *)
(* ===================================================================== *)

(** The steps of a startup, as the lifecycle names them. *)
Inductive step : Type :=
| AcquireListener
| StartServing
| OpenDatabase
| OpenRedis
| RegisterCheck (name : string)
| SignalReady.

#[global] Instance step_eq_dec : EqDecision step.
Proof. solve_decision. Defined.

Definition step_of (ev : event) : option step :=
  match ev with
  | EvListen _ _ => Some AcquireListener
  | EvServe _ => Some StartServing
  | EvDatabaseNew => Some OpenDatabase
  | EvRedisNew => Some OpenRedis
  | EvRegisterCheck name _ => Some (RegisterCheck name)
  | EvReady => Some SignalReady
  | _ => None
  end.

Definition startup_steps (l : list event) : list step := omap step_of l.

(** The order of startup steps as the lifecycle contract lists them:
    listener, serving, collaborators, checks, readiness. *)
Definition listener_first (l : list step) : Prop :=
  ∃ names, l = ([AcquireListener; StartServing; OpenDatabase; OpenRedis]
                ++ (RegisterCheck <$> names) ++ [SignalReady])%list.

(** The order in which [New] and [Run] perform them. *)
Definition collaborators_first (l : list step) : Prop :=
  ∃ names, l = ([OpenDatabase; OpenRedis] ++ (RegisterCheck <$> names)
                ++ [AcquireListener; StartServing; SignalReady])%list.

(** A registration of a health check that returned an error. *)
Definition registration_failed (ev : event) : bool :=
  match ev with
  | EvRegisterCheck _ (Done _ (Some _)) => true
  | EvNewHTTPCheck _ _ (Done _ (Some _)) => true
  | _ => false
  end.

Definition is_error_log (ev : event) : bool :=
  match ev with
  | EvLog level _ => String.eqb level "error"
  | _ => false
  end.

Definition is_ready (ev : event) : bool :=
  match ev with
  | EvReady => true
  | _ => false
  end.

Definition is_serve (ev : event) : bool :=
  match ev with
  | EvServe _ => true
  | _ => false
  end.

(** What every run of the health-check setup satisfies. *)
Definition setup_ok (m : run (option error)) : Prop :=
  (∃ names, startup_steps (log_of m) = RegisterCheck <$> names)
  ∧ (existsb is_error_log (log_of m) = false
     ∧ existsb is_ready (log_of m) = false
     ∧ existsb is_serve (log_of m) = false)
  ∧ match m with
    | Returned _ _ (Some _) => True
    | _ => existsb registration_failed (log_of m) = false
    end.

(** The teardown calls of [Shutdown]. *)
Definition is_teardown (ev : event) : bool :=
  match ev with
  | EvServerShutdown _ | EvDeregisterAll | EvDBClose | EvRedisClose
  | EvUpgraderStop => true
  | _ => false
  end.

Definition teardown_steps (l : list event) : list event :=
  List.filter is_teardown l.

Definition returns {A} (c : call A) : bool :=
  match c with
  | Done _ _ => true
  | Hang => false
  end.

Definition call_time {A} (c : call A) : N :=
  match c with
  | Done t _ => t
  | Hang => 0
  end.

(** One teardown event per collaborator that is there. *)
Definition when {A} (o : option A) (ev : event) : list event :=
  match o with
  | Some _ => [ev]
  | None => []
  end.

Definition shutdown_timeout (a : app.App) : Z :=
  a.(app.config).(configs.App).(configs.AppConfig.Shutdown).(configs.ShutdownConfig.Timeout).

(** The teardown calls of a complete [Shutdown] of [a], in order. *)
Definition teardown_sequence (a : app.App) : list event :=
  (EvServerShutdown (shutdown_timeout a)
   :: when a.(app.health) EvDeregisterAll
   ++ when a.(app.db) EvDBClose
   ++ when a.(app.redis) EvRedisClose
   ++ when a.(app.upgrader) EvUpgraderStop)%list.

(** Every collaborator of [a] that [Shutdown] calls without a deadline
    returns from that call. *)
Definition closes_return (a : app.App) : bool :=
  from_option (λ h, returns h.(gosundheit.DeregisterAll)) true a.(app.health)
  && from_option (λ d, returns d.(database.Close)) true a.(app.db)
  && from_option (λ r, returns r.(redis.Close)) true a.(app.redis)
  && from_option (λ u, returns u.(tableflip.Stop)) true a.(app.upgrader).

(** The time those calls take. *)
Definition closes_time (a : app.App) : N :=
  (from_option (λ h, call_time h.(gosundheit.DeregisterAll)) 0 a.(app.health)
   + from_option (λ d, call_time d.(database.Close)) 0 a.(app.db)
   + from_option (λ r, call_time r.(redis.Close)) 0 a.(app.redis)
   + from_option (λ u, call_time u.(tableflip.Stop)) 0 a.(app.upgrader))%N.

(** [Shutdown] has returned by the deadline. *)
Definition within_deadline (a : app.App) (w : World) : Prop :=
  ∃ t l r, app.Shutdown a w = Returned t l r ∧ (t ≤ Z.to_N (shutdown_timeout a))%N.

(** The address [Run] listens on. *)
Definition listen_addr (a : app.App) : string :=
  host_port a.(app.config).(configs.HTTP).(configs.HTTPConfig.Host)
            a.(app.config).(configs.HTTP).(configs.HTTPConfig.Port).

(* ===================================================================== *)
(** ** Sample worlds *)
(* ===================================================================== *)

Module sample.

Definition db_ok : database.DB := database.mk None (Done 5 None).
Definition db_hangs : database.DB := database.mk None Hang.
Definition db_down : database.DB :=
  database.mk (Some (ErrNew "connection refused")) (Done 5 (Some (ErrNew "close failed"))).
Definition redis_ok : redis.Client := redis.mk None (Done 7 None).

Definition up_ok : tableflip.Upgrader :=
  tableflip.mk (λ _ addr, Done 1 (Ok (tableflip.mkListener addr)))
    (Done 1 None) (Done 1 ()).
Definition up_in_use : tableflip.Upgrader :=
  tableflip.mk (λ _ _, Done 1 (Err (ErrNew "address already in use")))
    (Done 1 None) (Done 1 ()).

Definition health_ok : gosundheit.Health :=
  gosundheit.mk (λ _, Done 1 None) (Done 2 ()) (∅, true).
Definition health_degraded : gosundheit.Health :=
  gosundheit.mk (λ _, Done 1 None) (Done 2 ())
    ({["database" := Some (ErrNew "database ping failed")]}, false).
Definition health_rejects : gosundheit.Health :=
  gosundheit.mk (λ _, Done 1 (Some (ErrNew "check rejected"))) (Done 2 ()) (∅, true).

Definition world (d : database.DB) (h : gosundheit.Health)
    (u : tableflip.Upgrader) : World := {|
  configs_Load := Done 0 (Ok configs.defaults);
  logger_New := λ c, Done 0 (Ok (logger.mk c "std"));
  database_New := λ _, Done 3 (Ok d);
  redis_New := λ _, Done 3 (Ok redis_ok);
  tableflip_New := Done 0 (Ok u);
  gosundheit_New := h;
  checks_NewHTTPCheck := λ _ _, Done 0 None;
  tls_LoadX509KeyPair := λ c k, Done 0 (Err (ErrNew "no such file"));
  traffic := http.mkTraffic (Done 10 ()) None;
  wake := Done 100 WakeExit
|}.

Definition world_ok : World := world db_ok health_ok up_ok.

(** The application [New] builds in a world. *)
Definition app_of (w : World) (dflt : app.App) : app.App :=
  match value_of (app.New w) with
  | Some (Some a, _) => a
  | _ => dflt
  end.

Definition bare : app.App :=
  app.mkApp configs.defaults (logger.mk configs.defaults.(configs.Logging) "std")
    None None None None None None.

Definition app_ok : app.App := Eval vm_compute in app_of world_ok bare.
Definition app_db_hangs : app.App :=
  Eval vm_compute in app_of (world db_hangs health_ok up_ok) bare.
Definition app_db_down : app.App :=
  Eval vm_compute in app_of (world db_down health_ok up_ok) bare.
Definition app_degraded : app.App :=
  Eval vm_compute in app_of (world db_ok health_degraded up_ok) bare.
Definition app_in_use : app.App :=
  Eval vm_compute in app_of (world db_ok health_ok up_in_use) bare.

Definition tls_on (c : configs.Config) : configs.Config :=
  let h := c.(configs.HTTP) in
  configs.mkConfig c.(configs.App)
    (configs.HTTPConfig.mk h.(configs.HTTPConfig.Port) h.(configs.HTTPConfig.Host)
       h.(configs.HTTPConfig.ReadTimeout) h.(configs.HTTPConfig.WriteTimeout)
       h.(configs.HTTPConfig.IdleTimeout) h.(configs.HTTPConfig.MaxHeaderBytes)
       (configs.TLSConfig.mk true "cert.pem" "key.pem")
       h.(configs.HTTPConfig.CORS) h.(configs.HTTPConfig.RateLimit))
    c.(configs.Database) c.(configs.Redis) c.(configs.Auth) c.(configs.Logging)
    c.(configs.Health).

Definition std_logger : logger.Logger :=
  logger.mk configs.defaults.(configs.Logging) "std".
Definition mux : http.Mux := http.mkMux [] [].

End sample.

(* ===================================================================== *)
(** ** Observations on health-check setup *)
(* ===================================================================== *)

(** The names of the checks the registry accepted. *)
Definition registered_name (ev : event) : option string :=
  match ev with
  | EvRegisterCheck name (Done _ None) => Some name
  | _ => None
  end.

Definition registered (l : list event) : list string := omap registered_name l.

(** The checks the configuration asks for, in the order
    [setupHealthChecks] goes through them. *)
Definition wanted_checks (a : app.App) : list string :=
  let hc := a.(app.config).(configs.Health) in
  if negb hc.(configs.HealthConfig.Enabled) then [] else
  ((if hc.(configs.HealthConfig.DatabaseCheck) && bool_decide (is_Some a.(app.db))
    then ["database"] else [])
   ++ (if hc.(configs.HealthConfig.RedisCheck) && bool_decide (is_Some a.(app.redis))
       then ["redis"] else [])
   ++ ((λ url, "http_" +:+ url) <$> hc.(configs.HealthConfig.ExternalChecks)))%list.

(** Events of the health-check setup. *)
Definition is_registration (ev : event) : bool :=
  match ev with
  | EvRegisterCheck _ _ | EvNewHTTPCheck _ _ _ => true
  | _ => false
  end.

Definition panicked {A} (m : run A) : bool :=
  match m with
  | Panicked _ => true
  | _ => false
  end.

(** Every pointer field of the application is set. *)
Definition initialised (a : app.App) : Prop :=
  is_Some a.(app.router) ∧ is_Some a.(app.server) ∧ is_Some a.(app.health)
  ∧ is_Some a.(app.db) ∧ is_Some a.(app.redis) ∧ is_Some a.(app.upgrader).

(* ===================================================================== *)
(** ** More sample values *)
(* ===================================================================== *)

Module fixtures.

(** The defaults, moved to production with a signing secret. *)
Definition production : configs.Config :=
  let c := configs.defaults in
  let a := c.(configs.App) in
  let au := c.(configs.Auth) in
  configs.mkConfig
    (configs.AppConfig.mk a.(configs.AppConfig.Name) a.(configs.AppConfig.Version)
       "production" false a.(configs.AppConfig.Shutdown))
    c.(configs.HTTP) c.(configs.Database) c.(configs.Redis)
    (configs.AuthConfig.mk "s3cret" au.(configs.AuthConfig.JWTExpiration)
       au.(configs.AuthConfig.BCryptCost))
    c.(configs.Logging) c.(configs.Health).

Definition options : server.ServerOptions :=
  server.mkOptions (Some configs.defaults) (Some sample.std_logger)
    (Some sample.mux) (Some sample.up_ok).

(** The server [NewServer] builds from [options]. *)
Definition server_of (m : run (option server.Server * option error))
    : option server.Server :=
  match value_of m with
  | Some (Some s, _) => Some s
  | _ => None
  end.

Definition srv : server.Server :=
  Eval vm_compute in
    default (server.mkServer configs.defaults sample.std_logger None sample.up_ok None)
      (server_of (server.NewServer options sample.world_ok)).

(** A world in which the key pair loads. *)
Definition world_tls : World :=
  let w := sample.world_ok in
  mkWorld w.(configs_Load) w.(logger_New) w.(database_New) w.(redis_New)
    w.(tableflip_New) w.(gosundheit_New) w.(checks_NewHTTPCheck)
    (λ c k, Done 2 (Ok (http.mkCert c k))) w.(traffic) w.(wake).

Definition options_tls : server.ServerOptions :=
  server.mkOptions (Some (sample.tls_on configs.defaults)) (Some sample.std_logger)
    (Some sample.mux) (Some sample.up_ok).



End fixtures.

(* ===================================================================== *)
(** ** Configuration: connection strings *)
(* ===================================================================== *)

Example GetConnectionString_defaults :
  configs.GetConnectionString configs.defaults
  = "host=localhost port=5432 user=postgres password=password dbname=medical_rep sslmode=disable".
Proof. vm_compute. reflexivity. Qed.

Example GetConnectionString_mysql :
  configs.GetConnectionString (configs.with_driver configs.defaults "mysql")
  = "postgres:password@tcp(localhost:5432)/medical_rep?parseTime=true".
Proof. vm_compute. reflexivity. Qed.

(** C10: for every configuration whose database driver is neither postgres
    nor mysql, GetConnectionString returns the empty string; its result
    type is a plain string, so there is no error to return. *)
Theorem GetConnectionString_unknown_driver (c : configs.Config) :
  c.(configs.Database).(configs.DatabaseConfig.Driver) ≠ "postgres" →
  c.(configs.Database).(configs.DatabaseConfig.Driver) ≠ "mysql" →
  configs.GetConnectionString c = EmptyString.
Proof.
  intros Hpg Hmy. unfold configs.GetConnectionString.
  destruct (decide _) as [E|_]; [by destruct Hpg|].
  destruct (decide _) as [E|_]; [by destruct Hmy|].
  reflexivity.
Qed.

Lemma GetConnectionString_unknown_driver_witness :
  configs.GetConnectionString (configs.with_driver configs.defaults "sqlite") = EmptyString.
Proof.
  apply GetConnectionString_unknown_driver; vm_compute; discriminate.
Defined.

(* ===================================================================== *)
(** ** NewServer *)
(* ===================================================================== *)

(** C8: when any of Config, Logger, Handler or Upgrader is nil, NewServer
    returns a nil server and a non-nil error without touching the outside
    world; when all four are there, an error it returns comes with a nil
    server, TLS is enabled, and the error is the failure of loading the key
    pair, wrapped by setupTLS, setupServer and NewServer. *)
Theorem NewServer_requirements (opts : server.ServerOptions) (w : World) :
  (opts.(server.Config_) = None ∨ opts.(server.Logger) = None
   ∨ opts.(server.Handler) = None ∨ opts.(server.Upgrader) = None →
   ∃ e, server.NewServer opts w = Returned 0 [] (None, Some e))
  ∧ (∀ cfg lg hd up t l s e,
       opts = server.mkOptions (Some cfg) (Some lg) (Some hd) (Some up) →
       server.NewServer opts w = Returned t l (s, Some e) →
       let tls := cfg.(configs.HTTP).(configs.HTTPConfig.TLS) in
       s = None
       ∧ tls.(configs.TLSConfig.Enabled) = true
       ∧ ∃ e0,
           w.(tls_LoadX509KeyPair) tls.(configs.TLSConfig.CertFile)
                                   tls.(configs.TLSConfig.KeyFile)
             = Done t (Err e0)
           ∧ e = ErrWrap "failed to setup server"
                   (ErrWrap "failed to setup TLS"
                      (ErrWrap "failed to load TLS certificate" e0))).
Proof.
  split.
  - destruct opts as [[c|] [lg|] [hd|] [up|]]; cbn;
      intros [H|[H|[H|H]]]; try discriminate; eauto.
  - intros cfg lg hd up t l s e -> H. cbn in H.
    unfold server.NewServer, server.setupServer, server.setupTLS in H. cbn in H.
    destruct (configs.TLSConfig.Enabled _) eqn:Etls; cbn in H; [|discriminate].
    destruct (tls_LoadX509KeyPair w _ _) as [t0 [cert|e0]|] eqn:Eload; cbn in H;
      [discriminate| |discriminate].
    injection H as <- <- <- <-. cbn. rewrite Etls.
    split; [done|]. split; [done|]. exists e0. split; [|done].
    rewrite Eload. f_equal. lia.
Qed.

Lemma NewServer_requirements_witness :
  (∃ e, server.NewServer
          (server.mkOptions (Some configs.defaults) None (Some sample.mux)
             (Some sample.up_ok)) sample.world_ok
        = Returned 0 [] (None, Some e))
  ∧ ∃ e0, sample.world_ok.(tls_LoadX509KeyPair) "cert.pem" "key.pem" = Done 0 (Err e0).
Proof.
  split.
  - apply (proj1 (NewServer_requirements _ _)). right; left; reflexivity.
  - destruct (proj2 (NewServer_requirements
        (server.mkOptions (Some (sample.tls_on configs.defaults))
           (Some sample.std_logger) (Some sample.mux) (Some sample.up_ok))
        sample.world_ok) _ _ _ _ 0%N
        [EvLoadX509KeyPair "cert.pem" "key.pem"] None
        (ErrWrap "failed to setup server"
           (ErrWrap "failed to setup TLS"
              (ErrWrap "failed to load TLS certificate" (ErrNew "no such file"))))
        eq_refl) as (_ & _ & e0 & H & _).
    + vm_compute. reflexivity.
    + exists e0. exact H.
Defined.

(* ===================================================================== *)
(** ** Probe handlers *)
(* ===================================================================== *)

(** The byte written as 034 in the texts below is the double quote. *)
Example double_quote_byte :
  String "034" EmptyString = String (ascii_of_nat 34) EmptyString
  ∧ dq = String (ascii_of_nat 34) EmptyString.
Proof. split; reflexivity. Qed.

(** C4: with a health registry in place, healthzHandler always returns a
    response: status 200 and the body that reads status: healthy (as a JSON
    object, written out below byte by byte) when the aggregate verdict of
    the registry is healthy, status 503 and the body that reads status:
    unhealthy otherwise, whatever the per-check results (errors included)
    are. *)
Theorem healthzHandler_response (a : app.App) (h : gosundheit.Health)
    (rw : http.ResponseWriter) :
  a.(app.health) = Some h →
  rw.(http.status) = None →
  ∃ rw',
    app.healthzHandler a rw
      = Returned 0 [EvHealthResults; EvLog "debug" "Health check"] rw'
    ∧ rw'.(http.header) !! "Content-Type" = Some "application/json"
    ∧ (if h.(gosundheit.Results).2
       then rw'.(http.status) = Some 200
            ∧ rw'.(http.body)
              = rw.(http.body)
                +:+ "{" +:+ String "034" ("status" +:+ String "034" (": "
                    +:+ String "034" ("healthy" +:+ String "034" "}")))
       else rw'.(http.status) = Some 503
            ∧ rw'.(http.body)
              = rw.(http.body)
                +:+ "{" +:+ String "034" ("status" +:+ String "034" (": "
                    +:+ String "034" ("unhealthy" +:+ String "034" "}")))).
Proof.
  intros Hh Hs. unfold app.healthzHandler. rewrite Hh.
  destruct (gosundheit.Results h) as [results healthy]. cbn.
  destruct rw as [hd st bd]. cbn in Hs. subst st.
  eexists. split; [reflexivity|].
  destruct healthy; cbn; (split; [apply lookup_insert_eq|done]).
Qed.

Lemma healthzHandler_response_witness :
  ∃ rw',
    app.healthzHandler sample.app_degraded http.fresh
      = Returned 0 [EvHealthResults; EvLog "debug" "Health check"] rw'
    ∧ rw'.(http.header) !! "Content-Type" = Some "application/json"
    ∧ rw'.(http.status) = Some 503
    ∧ rw'.(http.body)
      = "{" +:+ String "034" ("status" +:+ String "034" (": "
            +:+ String "034" ("unhealthy" +:+ String "034" "}"))).
Proof.
  apply (healthzHandler_response sample.app_degraded sample.health_degraded http.fresh);
    reflexivity.
Defined.

(** The part of the readiness contract the handler keeps: the status code
    and the ready flag follow the pings of the collaborators that are
    there, and the body is one of two fixed texts, written out below byte
    by byte: ready: true with status 200, ready: false with status 503. *)
Lemma readinessHandler_status (a : app.App) :
  ∃ l ready checks rw,
    app.readinessChecks a = Returned 0 l (ready, checks)
    ∧ app.readinessHandler a http.fresh = Returned 0 l rw
    ∧ ready = bool_decide (from_option (λ d, d.(database.Ping)) None a.(app.db) = None)
              && bool_decide (from_option (λ r, r.(redis.Ping)) None a.(app.redis) = None)
    ∧ rw.(http.header) !! "Content-Type" = Some "application/json"
    ∧ (if ready
       then rw.(http.status) = Some 200
            ∧ rw.(http.body)
              = "{" +:+ String "034" ("ready" +:+ String "034" ": true}")
       else rw.(http.status) = Some 503
            ∧ rw.(http.body)
              = "{" +:+ String "034" ("ready" +:+ String "034" ": false}")).
Proof.
  unfold app.readinessHandler, app.readinessChecks.
  destruct a as [cfg lg rt sv h [[[e1|] c1]|] [[[e2|] c2]|] u]; cbn;
    eexists _, _, _, _; repeat split; apply lookup_insert_eq.
Qed.

(** C3, at an application whose database and Redis both answer the ping:
    the handler has the per-check map in hand (both entries healthy) and
    answers 200, but the body it writes is only the ready flag; the word
    checks does not occur in it. *)
Theorem readinessHandler_drops_checks :
  let checks : gmap string string :=
    <["redis" := "healthy"]> (<["database" := "healthy"]> ∅) in
  let rw :=
    http.mkRW (<["Content-Type" := "application/json"]> ∅) (Some 200)
      ("{" +:+ quoted "ready" +:+ ": true}") in
  app.readinessChecks sample.app_ok
    = Returned 0 [EvDBPing; EvRedisPing] (true, checks)
  ∧ app.readinessHandler sample.app_ok http.fresh
    = Returned 0 [EvDBPing; EvRedisPing] rw
  ∧ Contains rw.(http.body) "checks" = false.
Proof.
  split; [vm_compute; reflexivity|].
  split; vm_compute; reflexivity.
Qed.

(* ===================================================================== *)
(** ** Shutdown *)
(* ===================================================================== *)

Lemma http_Shutdown_bounded (tr : http.Traffic) (timeout : Z) :
  ∃ t e, http.Shutdown tr timeout = Done t e ∧ (t ≤ Z.to_N timeout)%N.
Proof.
  unfold http.Shutdown. destruct (http.drain tr) as [t []|].
  - destruct (N.leb_spec t (Z.to_N timeout)); eauto with lia.
  - eauto with lia.
Qed.

Lemma Shutdown_spec (a : app.App) (w : World) (srv : http.Server) :
  a.(app.server) = Some srv →
  ∃ t0 e0,
    http.Shutdown w.(traffic) (shutdown_timeout a) = Done t0 e0
    ∧ (t0 ≤ Z.to_N (shutdown_timeout a))%N
    ∧ if closes_return a then
        ∃ l, app.Shutdown a w = Returned (t0 + closes_time a) l None
             ∧ teardown_steps l = teardown_sequence a
      else
        ∃ l, app.Shutdown a w = Blocked l
             ∧ teardown_steps l `prefix_of` teardown_sequence a.
Proof.
  intros Hs.
  destruct (http_Shutdown_bounded w.(traffic) (shutdown_timeout a)) as (t0 & e0 & H0 & Hle).
  exists t0, e0. split; [done|]. split; [done|].
  unfold app.Shutdown, closes_return, closes_time, teardown_sequence.
  fold (shutdown_timeout a).
  rewrite Hs, H0. clear Hs H0 Hle.
  destruct a as [cfg lg rt sv [h|] [d|] [r|] [u|]]; cbn;
    repeat match goal with
    | |- context [gosundheit.DeregisterAll ?h] =>
        destruct (gosundheit.DeregisterAll h) as [? []|]
    | |- context [database.Close ?d] => destruct (database.Close d) as [? [?|]|]
    | |- context [redis.Close ?r] => destruct (redis.Close r) as [? [?|]|]
    | |- context [tableflip.Stop ?u] => destruct (tableflip.Stop u) as [? []|]
    end;
    destruct e0; cbn;
    try (eexists; split; [reflexivity|by eexists]);
    (eexists; split; [f_equal; lia|reflexivity]).
Qed.

Lemma Shutdown_no_startup_steps (a : app.App) (w : World) :
  startup_steps (log_of (app.Shutdown a w)) = [].
Proof.
  unfold app.Shutdown.
  destruct (app.server a) as [sv|]; cbn; [|done].
  destruct (http_Shutdown_bounded w.(traffic)
    (configs.ShutdownConfig.Timeout (configs.AppConfig.Shutdown (configs.App (app.config a)))))
    as (t0 & e0 & -> & _).
  destruct a as [cfg lg rt sv' [h|] [d|] [r|] [u|]]; cbn;
    repeat match goal with
    | |- context [gosundheit.DeregisterAll ?h] =>
        destruct (gosundheit.DeregisterAll h) as [? []|]
    | |- context [database.Close ?d] => destruct (database.Close d) as [? [?|]|]
    | |- context [redis.Close ?r] => destruct (redis.Close r) as [? [?|]|]
    | |- context [tableflip.Stop ?u] => destruct (tableflip.Stop u) as [? []|]
    end;
    destruct e0; reflexivity.
Qed.

(** C6: the teardown calls in the log of Shutdown always follow the
    order: drain of the HTTP server, DeregisterAll, database close, Redis
    close, upgrader stop (a collaborator that is nil has no call); and
    whenever the calls return, with or without an error, every one of them
    is made.  No hypothesis restricts the errors, so no error of a step
    keeps a later step from running. *)
Theorem Shutdown_teardown_order (a : app.App) (w : World) (srv : http.Server) :
  a.(app.server) = Some srv →
  teardown_steps (log_of (app.Shutdown a w)) `prefix_of` teardown_sequence a
  ∧ (closes_return a = true →
     teardown_steps (log_of (app.Shutdown a w)) = teardown_sequence a).
Proof.
  intros Hs.
  destruct (Shutdown_spec a w srv Hs) as (t0 & e0 & _ & _ & H).
  destruct (closes_return a).
  - destruct H as (l & -> & Hl). unfold log_of. by rewrite Hl.
  - destruct H as (l & -> & Hl). split; [exact Hl|discriminate].
Qed.

Lemma Shutdown_teardown_order_witness :
  teardown_sequence sample.app_db_down
  = [EvServerShutdown (30 * configs.Second); EvDeregisterAll; EvDBClose;
     EvRedisClose; EvUpgraderStop]
  ∧ teardown_steps (log_of (app.Shutdown sample.app_db_down sample.world_ok))
    = teardown_sequence sample.app_db_down.
Proof.
  split; [reflexivity|].
  exact (proj2 (Shutdown_teardown_order sample.app_db_down sample.world_ok _ eq_refl)
           eq_refl).
Defined.

(** C9: Shutdown never returns a non-nil error, whatever the state of the
    application and whatever the teardown calls return; and when its
    server is set and the teardown calls return, it does return, with
    nil. *)
Theorem Shutdown_returns_nil (a : app.App) (w : World) :
  (∀ t l e, app.Shutdown a w ≠ Returned t l (Some e))
  ∧ (is_Some a.(app.server) → closes_return a = true →
     ∃ t l, app.Shutdown a w = Returned t l None).
Proof.
  destruct (app.server a) as [srv|] eqn:Hs.
  - destruct (Shutdown_spec a w srv Hs) as (t0 & e0 & _ & _ & H).
    destruct (closes_return a).
    + destruct H as (l & -> & _). split; [congruence|eauto].
    + destruct H as (l & -> & _). split; [congruence|]. intros _ ?; discriminate.
  - split.
    + unfold app.Shutdown. rewrite Hs. cbn. congruence.
    + intros [? ?]; discriminate.
Qed.

Lemma Shutdown_returns_nil_witness :
  ∃ t l, app.Shutdown sample.app_db_down sample.world_ok = Returned t l None.
Proof.
  apply (proj2 (Shutdown_returns_nil sample.app_db_down sample.world_ok));
    [eexists; reflexivity | reflexivity].
Defined.

(** C1 fails as stated: with a database whose Close never returns,
    Shutdown has not returned by the deadline (it never returns). *)
Lemma Shutdown_blocked_close_misses_deadline :
  sample.app_db_hangs.(app.db) = Some sample.db_hangs
  ∧ sample.db_hangs.(database.Close) = Hang
  ∧ ¬ within_deadline sample.app_db_hangs sample.world_ok.
Proof.
  split; [reflexivity|]. split; [reflexivity|].
  intros (t & l & r & H & _). vm_compute in H. discriminate.
Qed.

(** C1, amended: of the teardown steps only the drain of the HTTP server is
    bounded by the configured shutdown timeout.  If DeregisterAll, the
    database close, the Redis close and the upgrader stop all return,
    Shutdown returns nil after at most the timeout plus the time those
    calls take; if one of them blocks for ever, so does Shutdown. *)
Theorem Shutdown_only_drain_bounded (a : app.App) (w : World) (srv : http.Server) :
  a.(app.server) = Some srv →
  (∃ t0 e0, http.Shutdown w.(traffic) (shutdown_timeout a) = Done t0 e0
            ∧ (t0 ≤ Z.to_N (shutdown_timeout a))%N)
  ∧ if closes_return a then
      ∃ t l, app.Shutdown a w = Returned t l None
             ∧ (t ≤ Z.to_N (shutdown_timeout a) + closes_time a)%N
    else ∃ l, app.Shutdown a w = Blocked l.
Proof.
  intros Hs.
  destruct (Shutdown_spec a w srv Hs) as (t0 & e0 & H0 & Hle & H).
  split; [eauto|].
  destruct (closes_return a).
  - destruct H as (l & -> & _). eexists _, _. split; [reflexivity|lia].
  - destruct H as (l & -> & _). by exists l.
Qed.

Lemma Shutdown_only_drain_bounded_witness :
  ∃ t l, app.Shutdown sample.app_db_down sample.world_ok = Returned t l None
         ∧ (t ≤ Z.to_N (shutdown_timeout sample.app_db_down)
                + closes_time sample.app_db_down)%N.
Proof.
  exact (proj2 (Shutdown_only_drain_bounded sample.app_db_down sample.world_ok _ eq_refl)).
Defined.

(* ===================================================================== *)
(** ** Run *)
(* ===================================================================== *)

(** C7: when the upgrader fails to give a listener, Run returns that error
    (wrapped with the address, and recovered by Unwrap) right after the
    Listen call, and Ready is never called. *)
Theorem Run_listen_failure (a : app.App) (w : World) (up : tableflip.Upgrader)
    (t : N) (e : error) :
  a.(app.upgrader) = Some up →
  up.(tableflip.Listen) "tcp" (listen_addr a) = Done t (Err e) →
  ∃ err,
    app.Run a w = Returned t [EvListen "tcp" (listen_addr a)] (Some err)
    ∧ err = ErrWrap ("failed to listen on " +:+ listen_addr a) e
    ∧ Unwrap err = Some e
    ∧ EvReady ∉ log_of (app.Run a w).
Proof.
  intros Hup Hl. eexists. unfold app.Run. rewrite Hup. fold (listen_addr a).
  rewrite Hl. cbn. rewrite N.add_0_r.
  repeat split. intros H. apply list_elem_of_singleton in H. discriminate.
Qed.

Lemma Run_listen_failure_witness :
  ∃ err,
    app.Run sample.app_in_use sample.world_ok
      = Returned 1 [EvListen "tcp" (listen_addr sample.app_in_use)] (Some err)
    ∧ err = ErrWrap ("failed to listen on " +:+ listen_addr sample.app_in_use)
              (ErrNew "address already in use")
    ∧ Unwrap err = Some (ErrNew "address already in use")
    ∧ EvReady ∉ log_of (app.Run sample.app_in_use sample.world_ok).
Proof.
  apply (Run_listen_failure sample.app_in_use sample.world_ok sample.up_in_use);
    reflexivity.
Defined.

(* ===================================================================== *)
(** ** Startup: New, then Run *)
(* ===================================================================== *)

Ltac pick_names :=
  lazymatch goal with
  | Hn : omap step_of _ = RegisterCheck <$> ?names |- _ =>
      first [ by (exists names; cbn; rewrite ?Hn)
            | by (eexists (_ :: names); cbn; rewrite ?Hn)
            | by (eexists (_ :: _ :: names); cbn; rewrite ?Hn) ]
  | |- _ =>
      first [ by exists [] | by eexists [_] | by eexists [_; _] ]
  end.

Ltac setup_ok_done :=
  unfold setup_ok; cbn in *; (split; [pick_names | by split]).

Lemma registerCheck_cases (a : app.App) (name : string) :
  match app.registerCheck a name with
  | Returned t l r =>
      ∃ c, l = [EvRegisterCheck name c] ∧ c = Done t r
  | Blocked l => l = [EvRegisterCheck name Hang]
  | Panicked l => l = []
  end.
Proof.
  unfold app.registerCheck. destruct (app.health a) as [h|]; cbn; [|done].
  destruct (gosundheit.RegisterCheck h name) as [t r|]; cbn; eauto.
Qed.

Lemma externalChecks_ok (a : app.App) (w : World) (urls : list string) :
  setup_ok (app.externalChecks a w urls).
Proof.
  induction urls as [|url rest IH]; cbn -[app.registerCheck].
  - setup_ok_done.
  - destruct (checks_NewHTTPCheck w _ url) as [t [e|]|]; cbn -[app.registerCheck];
      [setup_ok_done| |setup_ok_done].
    pose proof (registerCheck_cases a ("http_" +:+ url)) as Hr.
    destruct (app.registerCheck a _) as [t1 l1 [e|]|l1|l1];
      [destruct Hr as (c & -> & ->)..|subst l1|subst l1]; cbn;
      [setup_ok_done| |setup_ok_done..].
    destruct IH as ((names & Hn) & He & Hf).
    destruct (app.externalChecks a w rest) as [t2 l2 [e|]|l2|l2]; cbn in *;
      (split; [exists (("http_" +:+ url) :: names); cbn; by rewrite Hn|done]).
Qed.

Lemma setupHealthChecks_ok (a : app.App) (w : World) :
  setup_ok (app.setupHealthChecks a w).
Proof.
  unfold app.setupHealthChecks.
  destruct (negb _); [setup_ok_done|].
  pose proof (registerCheck_cases a "database") as Hd.
  pose proof (registerCheck_cases a "redis") as Hr.
  destruct (configs.HealthConfig.DatabaseCheck _ && _);
    [destruct (app.registerCheck a "database") as [t1 l1 [e1|]|l1|l1];
       [destruct Hd as (c1 & -> & ->)..|subst l1|subst l1]|];
    cbn -[app.registerCheck app.externalChecks]; try setup_ok_done.
  all: destruct (configs.HealthConfig.RedisCheck _ && _);
    [destruct (app.registerCheck a "redis") as [t2 l2 [e2|]|l2|l2];
       [destruct Hr as (c2 & -> & ->)..|subst l2|subst l2]|];
    cbn -[app.externalChecks]; try setup_ok_done.
  all: destruct (externalChecks_ok a w
         (configs.HealthConfig.ExternalChecks (configs.Health (app.config a))))
         as ((names & Hn) & He & Hf);
    destruct (app.externalChecks a w _) as [t3 l3 [e3|]|l3|l3];
    setup_ok_done.
Qed.

Lemma New_cases (w : World) :
  match app.New w with
  | Returned t l (Some a, None) =>
      (∃ names, startup_steps l
                = ([OpenDatabase; OpenRedis] ++ (RegisterCheck <$> names))%list)
      ∧ existsb is_ready l = false
      ∧ existsb registration_failed l = false
      ∧ is_Some a.(app.upgrader) ∧ is_Some a.(app.server)
  | Returned t l (None, Some e) =>
      existsb is_ready l = false
      ∧ (existsb registration_failed l = true →
         (∃ e', e = ErrWrap "failed to setup health checks" e')
         ∧ existsb is_error_log l = false
         ∧ existsb is_serve l = false)
  | Returned t l _ => False
  | Blocked l | Panicked l =>
      existsb is_ready l = false ∧ existsb registration_failed l = false
  end.
Proof.
  unfold app.New.
  destruct (configs_Load w) as [t0 [cfg|e]|]; cbn -[app.setupHealthChecks]; [|done..].
  destruct (logger_New w _) as [t1 [lg|e]|]; cbn -[app.setupHealthChecks]; [|done..].
  destruct (database_New w _) as [t2 [d|e]|]; cbn -[app.setupHealthChecks]; [|done..].
  destruct (redis_New w _) as [t3 [rc|e]|]; cbn -[app.setupHealthChecks]; [|done..].
  destruct (tableflip_New w) as [t4 [up|e]|]; cbn -[app.setupHealthChecks]; [|done..].
  unfold app.setupRouter.
  destruct (configs.RateLimitConfig.Enabled _); cbn -[app.setupHealthChecks].
  all: match goal with
       | |- context [app.setupHealthChecks ?a ?w0] =>
           destruct (setupHealthChecks_ok a w0) as ((names & Hn) & (He & Hr & Hs) & Hf);
           destruct (app.setupHealthChecks a w0) as [t5 l5 [e5|]|l5|l5]
       end; cbn in *.
  all: rewrite ?app_nil_r; repeat split; eauto.
  all: exists names; by rewrite Hn.
Qed.

Lemma log_of_bind {A B} (m : run A) (k : A → run B) :
  log_of (m ≫= k)
  = (log_of m ++ match value_of m with
                 | Some a => log_of (k a)
                 | None => []
                 end)%list.
Proof.
  destruct m as [t l a|l|l]; cbn; [by destruct (k a)|by rewrite app_nil_r..].
Qed.

Lemma startup_steps_app (l1 l2 : list event) :
  startup_steps (l1 ++ l2) = (startup_steps l1 ++ startup_steps l2)%list.
Proof. apply omap_app. Qed.

Lemma Run_steps (a : app.App) (w : World) :
  existsb is_ready (log_of (app.Run a w)) = true →
  startup_steps (log_of (app.Run a w))
  = [AcquireListener; StartServing; SignalReady].
Proof.
  pose proof (Shutdown_no_startup_steps a w) as HS.
  unfold app.Run.
  destruct (app.upgrader a) as [up|]; [|done].
  destruct (tableflip.Listen up _ _) as [t1 [ln|e]|]; cbn -[app.Shutdown]; try done.
  destruct (app.server a) as [sv|]; cbn -[app.Shutdown]; try done.
  intros _.
  destruct (tableflip.Ready up) as [t2 [e|]|]; cbn -[app.Shutdown]; try done.
  destruct (wake w) as [t3 [e| |]|]; cbn -[app.Shutdown]; try done;
    try destruct (decide _); cbn -[app.Shutdown]; try done;
    destruct (app.Shutdown a w); cbn in *; by rewrite ?HS.
Qed.

(** C5 fails as stated: in a world whose registry rejects every check, a
    registration fails and New does not return an application. *)
Lemma New_rejected_check_is_fatal :
  let w := sample.world sample.db_ok sample.health_rejects sample.up_ok in
  existsb registration_failed (log_of (app.New w)) = true
  ∧ ¬ (∃ t l a, app.New w = Returned t l (Some a, None)).
Proof.
  split; [vm_compute; reflexivity|].
  intros (t & l & a & H). vm_compute in H. discriminate.
Qed.

(** C5, amended: a failed health-check registration (RegisterCheck or
    NewHTTPCheck returning an error) is fatal to startup: New returns no
    application and the error of setupHealthChecks wrapped as a failure to
    set up health checks; it logs no error and does not start the
    server. *)
Theorem New_registration_failure_fatal (w : World) :
  existsb registration_failed (log_of (app.New w)) = true →
  ∃ t l e,
    app.New w = Returned t l (None, Some (ErrWrap "failed to setup health checks" e))
    ∧ existsb is_error_log l = false
    ∧ existsb is_serve l = false.
Proof.
  intros H. pose proof (New_cases w) as HN.
  destruct (app.New w) as [t l [[a|] [e|]]|l|l]; cbn in *; try done.
  - destruct HN as (_ & _ & HN & _). congruence.
  - destruct HN as [_ HN]. destruct (HN H) as ((e' & ->) & He & Hs).
    by exists t, l, e'.
  - destruct HN as [_ HN]. congruence.
  - destruct HN as [_ HN]. congruence.
Qed.

Lemma New_registration_failure_fatal_witness :
  ∃ t l e,
    app.New (sample.world sample.db_ok sample.health_rejects sample.up_ok)
      = Returned t l (None, Some (ErrWrap "failed to setup health checks" e))
    ∧ existsb is_error_log l = false
    ∧ existsb is_serve l = false.
Proof.
  apply New_registration_failure_fatal. vm_compute. reflexivity.
Defined.

(** C2 fails as stated: in a startup that succeeds, the steps are not in
    the order listener, serving, collaborators, checks, readiness; the
    database and Redis are opened and the checks registered before the
    listener is acquired. *)
Lemma startup_listener_not_first :
  existsb is_ready (log_of (app.main sample.world_ok)) = true
  ∧ startup_steps (log_of (app.main sample.world_ok))
    = [OpenDatabase; OpenRedis; RegisterCheck "database"; RegisterCheck "redis";
       AcquireListener; StartServing; SignalReady]
  ∧ ¬ listener_first (startup_steps (log_of (app.main sample.world_ok))).
Proof.
  assert (E : startup_steps (log_of (app.main sample.world_ok))
              = [OpenDatabase; OpenRedis; RegisterCheck "database";
                 RegisterCheck "redis"; AcquireListener; StartServing; SignalReady])
    by (vm_compute; reflexivity).
  split; [vm_compute; reflexivity|]. split; [exact E|].
  intros [names H]. rewrite E in H. discriminate.
Qed.

(** C2, amended: in every startup that gets as far as signalling
    readiness, the steps happen in the order: open the database, open
    Redis, register the health checks, acquire the listener via the
    upgrader, start serving, signal readiness. *)
Theorem startup_order (w : World) :
  existsb is_ready (log_of (app.main w)) = true →
  collaborators_first (startup_steps (log_of (app.main w))).
Proof.
  unfold app.main. rewrite log_of_bind. pose proof (New_cases w) as HN.
  destruct (app.New w) as [t l [[a|] [e|]]|l|l]; cbn -[app.Run] in *; try done.
  - destruct HN as ((names & Hn) & Hr & _).
    rewrite log_of_bind.
    set (tail := match value_of (app.Run a w) with Some _ => _ | None => _ end).
    assert (Htail : tail = [] ∨ tail = [EvLog "std" "Application error"]).
    { subst tail. destruct (app.Run a w) as [? ? [?|]|?|?]; cbn; auto. }
    rewrite !existsb_app, !startup_steps_app, Hr, Hn. cbn [orb].
    intros H.
    assert (existsb is_ready (log_of (app.Run a w)) = true) as HR.
    { destruct Htail as [-> | ->]; cbn in H; by rewrite ?orb_false_r in H. }
    rewrite (Run_steps a w HR). exists names.
    destruct Htail as [-> | ->]; cbn; by rewrite ?app_nil_r.
  - destruct HN as [HN _]. rewrite existsb_app, HN. done.
  - destruct HN as [HN _]. rewrite app_nil_r, HN. done.
  - destruct HN as [HN _]. rewrite app_nil_r, HN. done.
Qed.

Lemma startup_order_witness :
  collaborators_first (startup_steps (log_of (app.main sample.world_ok))).
Proof.
  apply startup_order. vm_compute. reflexivity.
Defined.

(* ===================================================================== *)
(** ** Configuration: validation, connection strings, environment keys *)
(* ===================================================================== *)

(** validate accepts a snapshot exactly when the application name and the
    database driver are not empty, the port is between 1 and 65535, a
    production environment comes with a JWT secret, and enabled TLS comes
    with both a certificate file and a key file. *)
Theorem validate_accepts_iff (C : configs.Config) :
  configs.validate C = None ↔
    C.(configs.App).(configs.AppConfig.Name) ≠ EmptyString
    ∧ (1 ≤ C.(configs.HTTP).(configs.HTTPConfig.Port) ≤ 65535)%Z
    ∧ C.(configs.Database).(configs.DatabaseConfig.Driver) ≠ EmptyString
    ∧ (C.(configs.App).(configs.AppConfig.Environment) = "production" →
       C.(configs.Auth).(configs.AuthConfig.JWTSecret) ≠ EmptyString)
    ∧ (C.(configs.HTTP).(configs.HTTPConfig.TLS).(configs.TLSConfig.Enabled) = true →
       C.(configs.HTTP).(configs.HTTPConfig.TLS).(configs.TLSConfig.CertFile) ≠ EmptyString
       ∧ C.(configs.HTTP).(configs.HTTPConfig.TLS).(configs.TLSConfig.KeyFile) ≠ EmptyString).
Proof.
  unfold configs.validate.
  assert (R : ∀ (e : error) (P : Prop), ¬ P → Some e = None ↔ P)
    by (intros e P HP; split; [discriminate|done]).
  destruct (decide (configs.AppConfig.Name _ = _)) as [E1|E1];
    [apply R; tauto|].
  destruct (Z.leb_spec (configs.HTTPConfig.Port (configs.HTTP C)) 0);
    cbn [orb]; [apply R; lia|].
  destruct (Z.ltb_spec 65535 (configs.HTTPConfig.Port (configs.HTTP C)));
    cbn [orb]; [apply R; lia|].
  destruct (decide (configs.DatabaseConfig.Driver _ = _)) as [E2|E2];
    [apply R; tauto|].
  destruct (bool_decide_reflect
              (configs.AuthConfig.JWTSecret (configs.Auth C) = EmptyString)) as [E3|E3];
    destruct (bool_decide_reflect
                (configs.AppConfig.Environment (configs.App C) = "production")) as [E4|E4];
    cbn [andb]; try (apply R; tauto).
  all: destruct (configs.TLSConfig.Enabled _); cbn [andb orb];
    [|split; [intros _; repeat split; (lia || done)|done]].
  all: destruct (bool_decide_reflect (configs.TLSConfig.CertFile
         (configs.HTTPConfig.TLS (configs.HTTP C)) = EmptyString)) as [E5|E5];
    destruct (bool_decide_reflect (configs.TLSConfig.KeyFile
         (configs.HTTPConfig.TLS (configs.HTTP C)) = EmptyString)) as [E6|E6];
    cbn [orb]; try (apply R; tauto).
  all: split; [intros _; repeat split; (lia || done)|done].
Qed.

(** A snapshot that validate accepts and IsProduction recognises has a
    JWT secret. *)
Theorem validate_production_secret (C : configs.Config) :
  configs.validate C = None →
  configs.IsProduction C = true →
  C.(configs.Auth).(configs.AuthConfig.JWTSecret) ≠ EmptyString.
Proof.
  unfold configs.validate, configs.IsProduction. intros Hv Hp E.
  rewrite Hp, (bool_decide_eq_true_2 _ E) in Hv. cbn [andb] in Hv.
  repeat case_match; discriminate.
Qed.

Lemma validate_production_secret_witness :
  fixtures.production.(configs.Auth).(configs.AuthConfig.JWTSecret) ≠ EmptyString.
Proof.
  apply validate_production_secret; vm_compute; reflexivity.
Defined.

Lemma append_cons_nonempty (s1 s2 : string) (c : ascii) :
  s1 +:+ String c s2 ≠ EmptyString.
Proof. by destruct s1. Qed.

(** GetConnectionString returns the empty string exactly for the drivers it
    does not know; for postgres and mysql the result is never empty,
    whatever the other fields hold. *)
Theorem GetConnectionString_empty_iff (c : configs.Config) :
  configs.GetConnectionString c = EmptyString ↔
    c.(configs.Database).(configs.DatabaseConfig.Driver) ≠ "postgres"
    ∧ c.(configs.Database).(configs.DatabaseConfig.Driver) ≠ "mysql".
Proof.
  unfold configs.GetConnectionString.
  destruct (decide _) as [E|E].
  - split; [discriminate|tauto].
  - destruct (decide _) as [E'|E'].
    + split; [|tauto]. intros H. by apply append_cons_nonempty in H.
    + tauto.
Qed.

Example envKey_app_name : configs.envKey "MEDICAL_REP_APP_NAME" = "app.name".
Proof. reflexivity. Qed.
Example envKey_read_timeout :
  configs.envKey "MEDICAL_REP_HTTP_READ_TIMEOUT" = "http.read.timeout".
Proof. reflexivity. Qed.

Lemma lower_byte_not_upper (c : ascii) : is_upper (lower_byte c) = false.
Proof. destruct c as [[] [] [] [] [] [] [] []]; reflexivity. Qed.

Lemma lower_byte_underscore (c : ascii) : lower_byte c = "_"%char → c = "_"%char.
Proof. destruct c as [[] [] [] [] [] [] [] []]; vm_compute; congruence. Qed.

Lemma bytes_app (s1 s2 : string) : bytes (s1 +:+ s2) = (bytes s1 ++ bytes s2)%list.
Proof. induction s1 as [|c s1 IH]; simpl; [done|by rewrite IH]. Qed.

Lemma bytes_ToLower (s : string) : bytes (ToLower s) = lower_byte <$> bytes s.
Proof. induction s as [|c s IH]; cbn; [done|by rewrite IH]. Qed.

Lemma bytes_ReplaceAll1 (s : string) (old : ascii) (new : string) :
  old ∉ bytes new → old ∉ bytes (ReplaceAll1 s old new).
Proof.
  intros Hn. induction s as [|c s IH]; simpl; [apply not_elem_of_nil|].
  rewrite bytes_app. intros [H|H]%elem_of_app; [|done].
  destruct (Ascii.eqb_spec c old) as [->|Hc]; [done|].
  cbn in H. apply list_elem_of_singleton in H. congruence.
Qed.

(** The key computed from the name of an (ASCII) environment variable has
    no underscore and no upper-case letter: every underscore of the name
    becomes a dot, so a key with an underscore in it, such as
    http.read_timeout, is never produced. *)
Theorem envKey_no_underscore_no_upper (s : string) :
  isASCII s = true →
  ∀ c, c ∈ bytes (configs.envKey s) → c ≠ "_"%char ∧ is_upper c = false.
Proof.
  intros _ c. unfold configs.envKey. rewrite bytes_ToLower.
  intros (c0 & -> & Hc0)%list_elem_of_fmap. split.
  - intros E%lower_byte_underscore. subst c0. revert Hc0.
    apply bytes_ReplaceAll1. cbn. intros H%list_elem_of_singleton. discriminate.
  - apply lower_byte_not_upper.
Qed.

Lemma envKey_no_underscore_no_upper_witness :
  "."%char ≠ "_"%char ∧ is_upper "."%char = false.
Proof.
  apply (envKey_no_underscore_no_upper "MEDICAL_REP_HTTP_READ_TIMEOUT" eq_refl).
  apply (bool_decide_unpack _). vm_compute. exact I.
Defined.

Lemma string_drop_app (p s : string) : string_drop (String.length p) (p +:+ s) = s.
Proof. induction p as [|c p IH]; simpl; done. Qed.

Lemma prefix_app (p s : string) : String.prefix p (p +:+ s) = true.
Proof.
  induction p as [|c p IH]; simpl; [by destruct s|].
  destruct (ascii_dec c c); [done|congruence].
Qed.

(** The MEDICAL_REP_ prefix is optional: a variable with the prefix and the
    variable of the same name without it give the same key. *)
Theorem envKey_prefix_optional (s : string) :
  isASCII s = true →
  String.prefix "MEDICAL_REP_" s = false →
  configs.envKey ("MEDICAL_REP_" +:+ s) = configs.envKey s.
Proof.
  intros _ Hp. unfold configs.envKey, TrimPrefix.
  rewrite Hp, prefix_app, string_drop_app. reflexivity.
Qed.

Lemma envKey_prefix_optional_witness :
  configs.envKey ("MEDICAL_REP_" +:+ "APP_NAME") = configs.envKey "APP_NAME".
Proof. apply envKey_prefix_optional; reflexivity. Defined.

(* ===================================================================== *)
(** ** Health-check setup and New *)
(* ===================================================================== *)

Ltac checks_done :=
  cbn in *;
  repeat match goal with
  | |- _ ∧ _ => split
  | |- Forall _ [] => constructor
  | |- Forall _ (_ :: _) => constructor; [reflexivity|]
  | |- [] `prefix_of` _ => apply prefix_nil
  | |- (?x :: _) `prefix_of` (?x :: _) => apply prefix_cons
  | |- _ → _ => intros ?
  end;
  try done; try congruence.

Lemma externalChecks_registered (a : app.App) (w : World) (urls : list string) :
  Forall (λ ev, is_registration ev = true) (log_of (app.externalChecks a w urls))
  ∧ registered (log_of (app.externalChecks a w urls))
      `prefix_of` ((λ url, "http_" +:+ url) <$> urls)
  ∧ (value_of (app.externalChecks a w urls) = Some None →
     registered (log_of (app.externalChecks a w urls))
     = (λ url, "http_" +:+ url) <$> urls)
  ∧ (is_Some a.(app.health) → panicked (app.externalChecks a w urls) = false).
Proof.
  induction urls as [|url rest IH]; cbn -[app.registerCheck].
  - checks_done.
  - destruct (checks_NewHTTPCheck w _ url) as [t [e|]|]; cbn -[app.registerCheck];
      [checks_done| |checks_done].
    pose proof (registerCheck_cases a ("http_" +:+ url)) as Hr.
    assert (Hp : is_Some (app.health a) →
                 panicked (app.registerCheck a ("http_" +:+ url)) = false).
    { intros [h Hh]. unfold app.registerCheck. rewrite Hh.
      by destruct (gosundheit.RegisterCheck h _). }
    destruct (app.registerCheck a _) as [t1 l1 [e|]|l1|l1];
      [destruct Hr as (c & -> & ->)..|subst l1|subst l1];
      [checks_done| |checks_done|checks_done; auto].
    destruct IH as (IH1 & IH2 & IH3 & IH4).
    destruct (app.externalChecks a w rest) as [t2 l2 [e|]|l2|l2];
      checks_done; auto.
    by rewrite IH3.
Qed.

Lemma registerCheck_no_panic (a : app.App) (name : string) :
  is_Some a.(app.health) → panicked (app.registerCheck a name) = false.
Proof.
  intros [h Hh]. unfold app.registerCheck. rewrite Hh.
  by destruct (gosundheit.RegisterCheck h _).
Qed.

Lemma setupHealthChecks_registered (a : app.App) (w : World) :
  Forall (λ ev, is_registration ev = true) (log_of (app.setupHealthChecks a w))
  ∧ registered (log_of (app.setupHealthChecks a w)) `prefix_of` wanted_checks a
  ∧ (value_of (app.setupHealthChecks a w) = Some None →
     registered (log_of (app.setupHealthChecks a w)) = wanted_checks a)
  ∧ (is_Some a.(app.health) → panicked (app.setupHealthChecks a w) = false).
Proof.
  unfold app.setupHealthChecks, wanted_checks.
  destruct (negb _); [checks_done|].
  pose proof (registerCheck_cases a "database") as Hd.
  pose proof (registerCheck_cases a "redis") as Hr.
  pose proof (registerCheck_no_panic a "database") as Pd.
  pose proof (registerCheck_no_panic a "redis") as Pr.
  destruct (externalChecks_registered a w
    (configs.HealthConfig.ExternalChecks (configs.Health (app.config a))))
    as (X1 & X2 & X3 & X4).
  destruct (configs.HealthConfig.DatabaseCheck _ && _);
    [destruct (app.registerCheck a "database") as [t1 l1 [e1|]|l1|l1];
       [destruct Hd as (c1 & -> & ->)..|subst l1|subst l1]|];
    cbn -[app.registerCheck app.externalChecks];
    try (checks_done; auto; fail).
  all: destruct (configs.HealthConfig.RedisCheck _ && _);
    [destruct (app.registerCheck a "redis") as [t2 l2 [e2|]|l2|l2];
       [destruct Hr as (c2 & -> & ->)..|subst l2|subst l2]|];
    cbn -[app.externalChecks];
    try (checks_done; auto; fail).
  all: destruct (app.externalChecks a w _) as [t3 l3 [e3|]|l3|l3];
    checks_done; auto; by rewrite X3.
Qed.

(** The checks the registry accepted during setupHealthChecks are always
    the first ones of the list the configuration asks for (database, redis,
    then one http_ check per external URL, in order), and all of them when
    it returns nil: it stops at the first failure and skips nothing. *)
Theorem setupHealthChecks_registers_wanted (a : app.App) (w : World) :
  registered (log_of (app.setupHealthChecks a w)) `prefix_of` wanted_checks a
  ∧ (value_of (app.setupHealthChecks a w) = Some None →
     registered (log_of (app.setupHealthChecks a w)) = wanted_checks a).
Proof.
  destruct (setupHealthChecks_registered a w) as (_ & H1 & H2 & _). by split.
Qed.

Lemma setupHealthChecks_registers_wanted_witness :
  registered (log_of (app.setupHealthChecks sample.app_ok sample.world_ok))
  = wanted_checks sample.app_ok.
Proof.
  apply (proj2 (setupHealthChecks_registers_wanted sample.app_ok sample.world_ok)).
  reflexivity.
Defined.

Lemma registration_not_teardown (l : list event) :
  Forall (λ ev, is_registration ev = true) l → teardown_steps l = [].
Proof.
  induction 1 as [|ev l Hev _ IH]; [done|].
  cbn. destruct ev; try discriminate; exact IH.
Qed.

Lemma New_shape (w : World) :
  match app.New w with
  | Returned t l (Some a, None) =>
      initialised a ∧ teardown_steps l = [] ∧ registered l = wanted_checks a
  | Returned t l (None, Some e) => teardown_steps l = []
  | Returned t l _ => False
  | Blocked l => teardown_steps l = []
  | Panicked l => False
  end.
Proof.
  unfold app.New.
  destruct (configs_Load w) as [t0 [cfg|e]|]; cbn -[app.setupHealthChecks]; [|done..].
  destruct (logger_New w _) as [t1 [lg|e]|]; cbn -[app.setupHealthChecks]; [|done..].
  destruct (database_New w _) as [t2 [d|e]|]; cbn -[app.setupHealthChecks]; [|done..].
  destruct (redis_New w _) as [t3 [rc|e]|]; cbn -[app.setupHealthChecks]; [|done..].
  destruct (tableflip_New w) as [t4 [up|e]|]; cbn -[app.setupHealthChecks]; [|done..].
  unfold app.setupRouter.
  destruct (configs.RateLimitConfig.Enabled _); cbn -[app.setupHealthChecks].
  all: match goal with
       | |- context [app.setupHealthChecks ?a ?w0] =>
           destruct (setupHealthChecks_registered a w0) as (F & _ & R & P);
           apply registration_not_teardown in F;
           specialize (P (ltac:(by eexists)));
           destruct (app.setupHealthChecks a w0) as [t5 l5 [e5|]|l5|l5]
       end; cbn in *; try done.
  all: rewrite ?app_nil_r; unfold initialised; cbn; repeat split; eauto.
Qed.

(** New returns either no application and an error, or an application
    and no error; the application then has its router, server, registry,
    database, Redis client and upgrader all set, and exactly the checks
    the configuration asks for are registered. *)
Theorem New_all_or_nothing (w : World) (t : N) (l : list event)
    (oa : option app.App) (oe : option error) :
  app.New w = Returned t l (oa, oe) →
  (oa = None ∧ is_Some oe)
  ∨ (oe = None ∧ ∃ a, oa = Some a ∧ initialised a ∧ registered l = wanted_checks a).
Proof.
  intros H. pose proof (New_shape w) as S. rewrite H in S.
  destruct oa as [a|], oe as [e|]; try done.
  - right. split; [done|]. exists a. tauto.
  - left. eauto.
Qed.

Lemma New_all_or_nothing_witness :
  ∃ a, initialised a
       ∧ registered (log_of (app.New sample.world_ok)) = wanted_checks a.
Proof.
  destruct (New_all_or_nothing sample.world_ok 8
              (log_of (app.New sample.world_ok)) (Some sample.app_ok) None)
    as [[H _]|(_ & a & _ & Hi & Hr)].
  - vm_compute. reflexivity.
  - discriminate H.
  - by exists a.
Defined.

(** New never panics and never closes anything: when a step fails after
    the database or Redis was opened, New returns the error and leaves
    them open. *)
Theorem New_never_tears_down (w : World) :
  teardown_steps (log_of (app.New w)) = [] ∧ panicked (app.New w) = false.
Proof.
  pose proof (New_shape w) as S.
  destruct (app.New w) as [t l [[a|] [e|]]|l|l]; cbn; try done.
  split; [tauto|done].
Qed.

(* ===================================================================== *)
(** ** Run, and the application New returns *)
(* ===================================================================== *)

Lemma Shutdown_cases (a : app.App) (w : World) (srv : http.Server) :
  a.(app.server) = Some srv →
  (∃ t l, app.Shutdown a w = Returned t l None
          ∧ teardown_steps l = teardown_sequence a
          ∧ closes_return a = true)
  ∨ (∃ l, app.Shutdown a w = Blocked l).
Proof.
  intros Hs. destruct (Shutdown_spec a w srv Hs) as (t0 & e0 & _ & _ & H).
  destruct (closes_return a).
  - left. destruct H as (l & -> & Hl). by exists (t0 + closes_time a)%N, l.
  - right. destruct H as (l & -> & _). by exists l.
Qed.

Lemma Run_cases (a : app.App) (w : World) :
  match app.Run a w with
  | Returned t l (Some err) =>
      teardown_steps l = []
      ∧ ∃ e, err = ErrWrap ("failed to listen on " +:+ listen_addr a) e
             ∨ err = ErrWrap "failed to signal ready" e
             ∨ (err = ErrWrap "server error" e ∧ e ≠ ErrServerClosed)
  | Returned t l None =>
      teardown_steps l = teardown_sequence a
      ∧ existsb is_ready l = true
      ∧ closes_return a = true
  | Blocked l => True
  | Panicked l => a.(app.upgrader) = None ∨ a.(app.server) = None
  end.
Proof.
  unfold app.Run. fold (listen_addr a).
  destruct (app.upgrader a) as [up|] eqn:Hup; [|cbn; auto].
  destruct (tableflip.Listen up _ _) as [t1 [ln|e]|]; cbn -[app.Shutdown];
    [|split; [done|eauto]|done].
  destruct (app.server a) as [sv|] eqn:Hsv; cbn -[app.Shutdown]; [|auto].
  destruct (tableflip.Ready up) as [t2 [e|]|]; cbn -[app.Shutdown];
    [split; [done|eauto]| |done].
  destruct (wake w) as [t3 [e| |]|]; cbn -[app.Shutdown]; [| | |done].
  1: destruct (decide _) as [->|Hne]; cbn -[app.Shutdown];
       [|split; [done|eauto]].
  all: destruct (Shutdown_cases a w sv Hsv) as [(t & l & -> & Hl & Hc)|(l & ->)];
    [|done]; unfold teardown_steps in *; cbn; by rewrite Hl.
Qed.

(** Whenever Run returns an error, it is a failure to listen, a failure
    to signal readiness, or an error of the serving goroutine other than
    ErrServerClosed, and Shutdown was not run: no teardown call is in the
    log. *)
Theorem Run_error_without_teardown (a : app.App) (w : World)
    (t : N) (l : list event) (err : error) :
  app.Run a w = Returned t l (Some err) →
  teardown_steps l = []
  ∧ ∃ e, err = ErrWrap ("failed to listen on " +:+ listen_addr a) e
         ∨ err = ErrWrap "failed to signal ready" e
         ∨ (err = ErrWrap "server error" e ∧ e ≠ ErrServerClosed).
Proof. intros H. pose proof (Run_cases a w) as R. by rewrite H in R. Qed.

Lemma Run_error_without_teardown_witness :
  teardown_steps [EvListen "tcp" (listen_addr sample.app_in_use)] = []
  ∧ ∃ e, ErrWrap ("failed to listen on " +:+ listen_addr sample.app_in_use)
           (ErrNew "address already in use")
         = ErrWrap ("failed to listen on " +:+ listen_addr sample.app_in_use) e
         ∨ ErrWrap ("failed to listen on " +:+ listen_addr sample.app_in_use)
             (ErrNew "address already in use")
           = ErrWrap "failed to signal ready" e
         ∨ (ErrWrap ("failed to listen on " +:+ listen_addr sample.app_in_use)
              (ErrNew "address already in use")
            = ErrWrap "server error" e ∧ e ≠ ErrServerClosed).
Proof.
  apply (Run_error_without_teardown sample.app_in_use sample.world_ok 1).
  reflexivity.
Defined.

(** Whenever Run returns nil, readiness was signalled and the complete
    teardown sequence of Shutdown was run. *)
Theorem Run_nil_after_full_teardown (a : app.App) (w : World)
    (t : N) (l : list event) :
  app.Run a w = Returned t l None →
  teardown_steps l = teardown_sequence a
  ∧ existsb is_ready l = true
  ∧ closes_return a = true.
Proof. intros H. pose proof (Run_cases a w) as R. by rewrite H in R. Qed.

Lemma Run_nil_after_full_teardown_witness :
  teardown_steps (log_of (app.Run sample.app_ok sample.world_ok))
  = teardown_sequence sample.app_ok
  ∧ existsb is_ready (log_of (app.Run sample.app_ok sample.world_ok)) = true
  ∧ closes_return sample.app_ok = true.
Proof.
  apply (Run_nil_after_full_teardown sample.app_ok sample.world_ok 127).
  vm_compute. reflexivity.
Defined.

(** An application returned by New never hits a nil pointer: Run,
    Shutdown, healthzHandler and readinessHandler do not panic on it, in
    any world. *)
Theorem New_app_never_panics (w : World) (t : N) (l : list event)
    (a : app.App) (oe : option error) :
  app.New w = Returned t l (Some a, oe) →
  ∀ (w' : World) (rw : http.ResponseWriter),
    panicked (app.Run a w') = false
    ∧ panicked (app.Shutdown a w') = false
    ∧ panicked (app.healthzHandler a rw) = false
    ∧ panicked (app.readinessHandler a rw) = false.
Proof.
  intros H w' rw. pose proof (New_shape w) as S. rewrite H in S.
  destruct oe as [e|]; [done|].
  destruct S as ((_ & [sv Hsv] & [h Hh] & _ & _ & [up Hup]) & _).
  repeat split.
  - pose proof (Run_cases a w') as R.
    destruct (app.Run a w'); [done..|]. destruct R; congruence.
  - by destruct (Shutdown_cases a w' sv Hsv) as [(? & ? & -> & _)|(? & ->)].
  - unfold app.healthzHandler. rewrite Hh. by destruct (gosundheit.Results h).
  - unfold app.readinessHandler, app.readinessChecks.
    destruct (app.db a) as [[[?|] ?]|], (app.redis a) as [[[?|] ?]|]; reflexivity.
Qed.

Lemma New_app_never_panics_witness :
  panicked (app.Run sample.app_ok sample.world_ok) = false
  ∧ panicked (app.Shutdown sample.app_ok sample.world_ok) = false
  ∧ panicked (app.healthzHandler sample.app_ok http.fresh) = false
  ∧ panicked (app.readinessHandler sample.app_ok http.fresh) = false.
Proof.
  apply (New_app_never_panics sample.world_ok 8
           (log_of (app.New sample.world_ok)) sample.app_ok None).
  vm_compute. reflexivity.
Defined.

(* ===================================================================== *)
(** ** The HTTP server wrapper *)
(* ===================================================================== *)

Lemma NewServer_inv (opts : server.ServerOptions) (w : World) (t : N)
    (l : list event) (s : server.Server) (oe : option error) :
  server.NewServer opts w = Returned t l (Some s, oe) →
  ∃ cfg lg hd up tlsc,
    opts = server.mkOptions (Some cfg) (Some lg) (Some hd) (Some up)
    ∧ oe = None
    ∧ s = server.mkServer cfg lg
            (Some (http.mkServer
                     (host_port cfg.(configs.HTTP).(configs.HTTPConfig.Host)
                                cfg.(configs.HTTP).(configs.HTTPConfig.Port))
                     (Some hd)
                     cfg.(configs.HTTP).(configs.HTTPConfig.ReadTimeout)
                     cfg.(configs.HTTP).(configs.HTTPConfig.WriteTimeout)
                     cfg.(configs.HTTP).(configs.HTTPConfig.IdleTimeout)
                     cfg.(configs.HTTP).(configs.HTTPConfig.MaxHeaderBytes)
                     (Some lg.(logger.StdLogger)) tlsc))
            up None
    ∧ let tls := cfg.(configs.HTTP).(configs.HTTPConfig.TLS) in
      if tls.(configs.TLSConfig.Enabled) then
        ∃ cert,
          w.(tls_LoadX509KeyPair) tls.(configs.TLSConfig.CertFile)
                                  tls.(configs.TLSConfig.KeyFile) = Done t (Ok cert)
          ∧ l = [EvLoadX509KeyPair tls.(configs.TLSConfig.CertFile)
                                   tls.(configs.TLSConfig.KeyFile)]
          ∧ ∃ c, tlsc = Some c ∧ c.(http.Certificates) = [cert]
                 ∧ c.(http.MinVersion) = server.VersionTLS12
      else tlsc = None ∧ l = [] ∧ t = 0%N.
Proof.
  destruct opts as [[cfg|] [lg|] [hd|] [up|]]; cbn; try discriminate.
  unfold server.setupServer, server.setupTLS. cbn.
  destruct (configs.TLSConfig.Enabled _) eqn:Etls; cbn.
  - destruct (tls_LoadX509KeyPair w _ _) as [t0 [cert|e0]|] eqn:El; cbn;
      try discriminate.
    intros [= <- <- <- <-]. eexists cfg, lg, hd, up, _.
    repeat split. rewrite Etls. exists cert. rewrite El.
    split; [f_equal; lia|]. split; [done|]. eexists. repeat split.
  - intros [= <- <- <- <-]. eexists cfg, lg, hd, up, None.
    repeat split. by rewrite Etls.
Qed.

Example NewServer_tls_loaded :
  ∃ s, server.NewServer fixtures.options_tls fixtures.world_tls
       = Returned 2 [EvLoadX509KeyPair "cert.pem" "key.pem"] (Some s, None).
Proof. eexists. vm_compute. reflexivity. Qed.

(** A server that NewServer returns comes without an error and is not
    ready: it has no listener and no address, its metrics have no addr
    entry, and HealthCheck fails with server is not ready without
    dialling. *)
Theorem NewServer_fresh_not_ready (opts : server.ServerOptions) (w : World)
    (t : N) (l : list event) (s : server.Server) (oe : option error) :
  server.NewServer opts w = Returned t l (Some s, oe) →
  oe = None
  ∧ server.IsReady s = false
  ∧ server.Addr s = None
  ∧ server.GetMetrics s !! "addr" = None
  ∧ ∀ dial, server.HealthCheck s dial = Some (ErrNew "server is not ready").
Proof.
  intros H. apply NewServer_inv in H as (cfg & lg & hd & up & tlsc & _ & -> & -> & _).
  repeat split.
Qed.

Lemma NewServer_fresh_not_ready_witness :
  server.IsReady fixtures.srv = false
  ∧ server.HealthCheck fixtures.srv (λ _, None) = Some (ErrNew "server is not ready").
Proof.
  destruct (NewServer_fresh_not_ready fixtures.options sample.world_ok 0 []
              fixtures.srv None) as (_ & H1 & _ & _ & H2).
  - vm_compute. reflexivity.
  - split; [exact H1|apply H2].
Defined.

(** The server NewServer returns listens on host:port of the
    configuration with the handler it was given.  With TLS disabled it has
    no TLS configuration and NewServer reads no file; with TLS enabled the
    key pair of the configured files was loaded and is the only
    certificate, with TLS 1.2 as the minimum version. *)
Theorem NewServer_tls_only_when_enabled (opts : server.ServerOptions) (w : World)
    (t : N) (l : list event) (s : server.Server) (oe : option error) :
  server.NewServer opts w = Returned t l (Some s, oe) →
  ∃ srv,
    s.(server.server) = Some srv
    ∧ srv.(http.Addr) = host_port s.(server.config).(configs.HTTP).(configs.HTTPConfig.Host)
                                  s.(server.config).(configs.HTTP).(configs.HTTPConfig.Port)
    ∧ srv.(http.Handler) = opts.(server.Handler)
    ∧ let tls := s.(server.config).(configs.HTTP).(configs.HTTPConfig.TLS) in
      if tls.(configs.TLSConfig.Enabled) then
        ∃ cert c,
          w.(tls_LoadX509KeyPair) tls.(configs.TLSConfig.CertFile)
                                  tls.(configs.TLSConfig.KeyFile) = Done t (Ok cert)
          ∧ srv.(http.TLSConfig_) = Some c
          ∧ c.(http.Certificates) = [cert]
          ∧ c.(http.MinVersion) = server.VersionTLS12
      else srv.(http.TLSConfig_) = None ∧ l = [].
Proof.
  intros H. apply NewServer_inv in H as (cfg & lg & hd & up & tlsc & -> & -> & -> & H).
  eexists. split; [reflexivity|]. cbn in *. repeat split.
  destruct (configs.TLSConfig.Enabled _).
  - destruct H as (cert & El & _ & c & -> & Hc & Hm). by exists cert, c.
  - by destruct H as (-> & -> & _).
Qed.

Lemma NewServer_tls_only_when_enabled_witness :
  ∃ srv, fixtures.srv.(server.server) = Some srv
         ∧ srv.(http.Handler) = Some sample.mux
         ∧ srv.(http.TLSConfig_) = None.
Proof.
  destruct (NewServer_tls_only_when_enabled fixtures.options sample.world_ok 0 []
              fixtures.srv None) as (srv & H1 & _ & H2 & H3 & _).
  - vm_compute. reflexivity.
  - by exists srv.
Defined.



(** HealthCheck passes exactly when the server has a listener and a
    connection to the listener's own address succeeds. *)
Theorem HealthCheck_passes_iff (s : server.Server) (dial : string → option error) :
  server.HealthCheck s dial = None ↔
    ∃ ln, s.(server.listener) = Some ln ∧ dial ln.(tableflip.Addr) = None.
Proof.
  unfold server.HealthCheck, server.IsReady, server.Addr.
  destruct (server.listener s) as [ln|]; cbn.
  - try (rewrite bool_decide_eq_true_2 by eauto); cbn.
    destruct (dial _) eqn:E; split; try done.
    + intros (ln' & [= <-] & H). congruence.
    + intros _. by exists ln.
  - try (rewrite bool_decide_eq_false_2 by (intros [? ?]; discriminate)); cbn.
    split; [done|]. intros (? & ? & _). discriminate.
Qed.

(** The metrics have an addr entry exactly when the server is ready, and
    their server_ready and port entries are IsReady and the configured
    port. *)
Theorem GetMetrics_addr_iff_ready (s : server.Server) :
  (is_Some (server.GetMetrics s !! "addr") ↔ server.IsReady s = true)
  ∧ server.GetMetrics s !! "server_ready" = Some (server.MBool (server.IsReady s))
  ∧ server.GetMetrics s !! "port"
    = Some (server.MInt s.(server.config).(configs.HTTP).(configs.HTTPConfig.Port)).
Proof.
  unfold server.GetMetrics, server.IsReady.
  destruct (server.listener s) as [ln|]; cbn.
  - try (rewrite bool_decide_eq_true_2 by eauto).
    split; [|by simplify_map_eq]. rewrite lookup_insert_eq. split; eauto.
  - try (rewrite bool_decide_eq_false_2 by (intros [? ?]; discriminate)).
    split; [|by simplify_map_eq]. simplify_map_eq. split; [intros [? ?]|]; done.
Qed.
